(** * Geometry kernel of [local_carla_api.py]: vectors, rotations,
    quaternions, transforms and bounding boxes.

  Python's [float] and NumPy's [float64] are idealised as the real numbers
  of the Standard Library: every arithmetic operation is exact, there is no
  signed zero, no infinity and no NaN.  Two places where the program leaves
  that idealisation are kept explicit:
  - an operation whose floating-point outcome is an exception, an infinity
    or a NaN (division by zero, [arcsin] outside [-1, 1], inverting a
    singular matrix) is an error of the model, see [Py.result];
  - the cast [astype(np.float32)] is an unspecified function on the reals
    that the definitions take as a parameter. *)

From Stdlib Require Import ZArith Reals RNsatz Lra Lia Psatz List Bool String.
Import ListNotations.
Local Open Scope R_scope.

(* ===================================================================== *)
(** ** Python and [math] primitives                                       *)
(* ===================================================================== *)

Module Py.

(** Exceptions the modelled code can meet. *)
Inductive exn : Set :=
| ZeroDivisionError   (* a zero divisor *)
| DomainError         (* an inverse trigonometric function off its domain *)
| LinAlgError.        (* [np.linalg.inv] on a singular matrix *)

Inductive result (A : Type) : Type :=
| Ok (a : A)
| Raise (e : exn).
Arguments Ok {A} a.
Arguments Raise {A} e.

Definition bind {A B : Type} (c : result A) (k : A -> result B) : result B :=
  match c with
  | Ok a => k a
  | Raise e => Raise e
  end.

(** Comparisons of floats, as booleans. *)
Definition lt (a b : R) : bool := if Rlt_dec a b then true else false.
Definition gt (a b : R) : bool := if Rgt_dec a b then true else false.
Definition le (a b : R) : bool := if Rle_dec a b then true else false.
Definition eq (a b : R) : bool := if Req_dec_T a b then true else false.
Definition ne (a b : R) : bool := if Req_dec_T a b then false else true.

(** [a / b]; a zero divisor is an error. *)
Definition truediv (a b : R) : result R :=
  if Req_dec_T b 0 then Raise ZeroDivisionError else Ok (a / b).

(** [math.radians] and [math.degrees]. *)
Definition radians (d : R) : R := d * (PI / 180).
Definition degrees (r : R) : R := r * (180 / PI).

(** [math.atan2(y, x)] (also [np.arctan2]): the angle of the point
    [(x, y)], in (-pi, pi]; [atan2(0, 0) = 0]. *)
Definition atan2 (y x : R) : R :=
  if Rlt_dec 0 x then atan (y / x)
  else if Rlt_dec x 0 then
    if Rle_dec 0 y then atan (y / x) + PI else atan (y / x) - PI
  else if Rlt_dec 0 y then PI / 2
  else if Rlt_dec y 0 then - (PI / 2)
  else 0.

(** [np.arcsin]: NaN off [-1, 1]. *)
Definition arcsin (v : R) : result R :=
  if Rle_dec (-1) v then
    if Rle_dec v 1 then Ok (asin v) else Raise DomainError
  else Raise DomainError.

(** [np.clip(v, lo, hi)]. *)
Definition clip (v lo hi : R) : R :=
  if Rlt_dec v lo then lo else if Rlt_dec hi v then hi else v.

(** [math.tan]; at an odd multiple of pi / 2 the exact tangent is infinite,
    an error of the model. *)
Definition tan (v : R) : result R :=
  if Req_dec_T (cos v) 0 then Raise DomainError else Ok (Rtrigo1.tan v).

(** [math.log]: [ValueError] ("math domain error") off the positive
    numbers, rendered here as [DomainError]. *)
Definition log (v : R) : result R :=
  if Rlt_dec 0 v then Ok (ln v) else Raise DomainError.

End Py.

Notation "x <- c ;; k" := (Py.bind c (fun x => k))
(at level 61, c at next level, right associativity).

(* ===================================================================== *)
(** ** NumPy arrays of the shapes the module uses                         *)
(* ===================================================================== *)

Module Np.

(** An array of shape (3,). *)
Definition array3 : Type := (R * R * R)%type.

(** An array of shape (3, 3); [aij] is [m[i, j]]. *)
Record matrix3 : Type := Matrix3 {
  a00 : R; a01 : R; a02 : R;
  a10 : R; a11 : R; a12 : R;
  a20 : R; a21 : R; a22 : R
}.

(** An array of shape (4, 4); [mij] is [m[i, j]]. *)
Record matrix4 : Type := Matrix4 {
  m00 : R; m01 : R; m02 : R; m03 : R;
  m10 : R; m11 : R; m12 : R; m13 : R;
  m20 : R; m21 : R; m22 : R; m23 : R;
  m30 : R; m31 : R; m32 : R; m33 : R
}.

(** [np.identity(4)]. *)
Definition identity4 : matrix4 :=
  Matrix4 1 0 0 0
          0 1 0 0
          0 0 1 0
          0 0 0 1.

(** [np.dot(a, b)] on two (4, 4) arrays. *)
Definition dot (a b : matrix4) : matrix4 :=
  Matrix4
    (m00 a * m00 b + m01 a * m10 b + m02 a * m20 b + m03 a * m30 b)
    (m00 a * m01 b + m01 a * m11 b + m02 a * m21 b + m03 a * m31 b)
    (m00 a * m02 b + m01 a * m12 b + m02 a * m22 b + m03 a * m32 b)
    (m00 a * m03 b + m01 a * m13 b + m02 a * m23 b + m03 a * m33 b)
    (m10 a * m00 b + m11 a * m10 b + m12 a * m20 b + m13 a * m30 b)
    (m10 a * m01 b + m11 a * m11 b + m12 a * m21 b + m13 a * m31 b)
    (m10 a * m02 b + m11 a * m12 b + m12 a * m22 b + m13 a * m32 b)
    (m10 a * m03 b + m11 a * m13 b + m12 a * m23 b + m13 a * m33 b)
    (m20 a * m00 b + m21 a * m10 b + m22 a * m20 b + m23 a * m30 b)
    (m20 a * m01 b + m21 a * m11 b + m22 a * m21 b + m23 a * m31 b)
    (m20 a * m02 b + m21 a * m12 b + m22 a * m22 b + m23 a * m32 b)
    (m20 a * m03 b + m21 a * m13 b + m22 a * m23 b + m23 a * m33 b)
    (m30 a * m00 b + m31 a * m10 b + m32 a * m20 b + m33 a * m30 b)
    (m30 a * m01 b + m31 a * m11 b + m32 a * m21 b + m33 a * m31 b)
    (m30 a * m02 b + m31 a * m12 b + m32 a * m22 b + m33 a * m32 b)
    (m30 a * m03 b + m31 a * m13 b + m32 a * m23 b + m33 a * m33 b).

(** The first three rows of [np.dot(m, [[x], [y], [z], [1]])]. *)
Definition dot_point (m : matrix4) (p : array3) : array3 :=
  let '(x, y, z) := p in
  (m00 m * x + m01 m * y + m02 m * z + m03 m * 1,
   m10 m * x + m11 m * y + m12 m * z + m13 m * 1,
   m20 m * x + m21 m * y + m22 m * z + m23 m * 1).

(** Scaling of every entry. *)
Definition scale (k : R) (m : matrix4) : matrix4 :=
  Matrix4
    (k * m00 m) (k * m01 m) (k * m02 m) (k * m03 m)
    (k * m10 m) (k * m11 m) (k * m12 m) (k * m13 m)
    (k * m20 m) (k * m21 m) (k * m22 m) (k * m23 m)
    (k * m30 m) (k * m31 m) (k * m32 m) (k * m33 m).

(** Determinant and adjugate, through the twelve 2x2 minors of the upper
    and of the lower pair of rows. *)
Section Minors.
Variable a : matrix4.
Let s0 := m00 a * m11 a - m10 a * m01 a.
Let s1 := m00 a * m12 a - m10 a * m02 a.
Let s2 := m00 a * m13 a - m10 a * m03 a.
Let s3 := m01 a * m12 a - m11 a * m02 a.
Let s4 := m01 a * m13 a - m11 a * m03 a.
Let s5 := m02 a * m13 a - m12 a * m03 a.
Let c5 := m22 a * m33 a - m32 a * m23 a.
Let c4 := m21 a * m33 a - m31 a * m23 a.
Let c3 := m21 a * m32 a - m31 a * m22 a.
Let c2 := m20 a * m33 a - m30 a * m23 a.
Let c1 := m20 a * m32 a - m30 a * m22 a.
Let c0 := m20 a * m31 a - m30 a * m21 a.

Definition det : R :=
    s0 * c5 - s1 * c4 + s2 * c3 + s3 * c2 - s4 * c1 + s5 * c0.

Definition adjugate : matrix4 :=
    Matrix4
      (  m11 a * c5 - m12 a * c4 + m13 a * c3)
      (- m01 a * c5 + m02 a * c4 - m03 a * c3)
      (  m31 a * s5 - m32 a * s4 + m33 a * s3)
      (- m21 a * s5 + m22 a * s4 - m23 a * s3)
      (- m10 a * c5 + m12 a * c2 - m13 a * c1)
      (  m00 a * c5 - m02 a * c2 + m03 a * c1)
      (- m30 a * s5 + m32 a * s2 - m33 a * s1)
      (  m20 a * s5 - m22 a * s2 + m23 a * s1)
      (  m10 a * c4 - m11 a * c2 + m13 a * c0)
      (- m00 a * c4 + m01 a * c2 - m03 a * c0)
      (  m30 a * s4 - m31 a * s2 + m33 a * s0)
      (- m20 a * s4 + m21 a * s2 - m23 a * s0)
      (- m10 a * c3 + m11 a * c1 - m12 a * c0)
      (  m00 a * c3 - m01 a * c1 + m02 a * c0)
      (- m30 a * s3 + m31 a * s1 - m32 a * s0)
      (  m20 a * s3 - m21 a * s1 + m22 a * s0).
End Minors.

(** [np.linalg.inv]: the inverse of a (4, 4) array, [LinAlgError] on a
    singular one. *)
Definition linalg_inv (a : matrix4) : Py.result matrix4 :=
  if Req_dec_T (det a) 0 then Py.Raise Py.LinAlgError
  else Py.Ok (scale (/ det a) (adjugate a)).

(** [np.linalg.norm] of a vector of two, three and four entries. *)
Definition norm2 (x y : R) : R := sqrt (x * x + y * y).
Definition norm3 (x y z : R) : R := sqrt (x * x + y * y + z * z).
Definition norm4 (w x y z : R) : R := sqrt (w * w + x * x + y * y + z * z).

(** [np.identity(3)], [np.dot] on two (3, 3) arrays, the transpose, and
    [np.dot] of a (3, 3) array with a vector of three entries. *)
Definition identity3 : matrix3 :=
  Matrix3 1 0 0
          0 1 0
          0 0 1.

Definition dot3 (a b : matrix3) : matrix3 :=
  Matrix3
    (a00 a * a00 b + a01 a * a10 b + a02 a * a20 b)
    (a00 a * a01 b + a01 a * a11 b + a02 a * a21 b)
    (a00 a * a02 b + a01 a * a12 b + a02 a * a22 b)
    (a10 a * a00 b + a11 a * a10 b + a12 a * a20 b)
    (a10 a * a01 b + a11 a * a11 b + a12 a * a21 b)
    (a10 a * a02 b + a11 a * a12 b + a12 a * a22 b)
    (a20 a * a00 b + a21 a * a10 b + a22 a * a20 b)
    (a20 a * a01 b + a21 a * a11 b + a22 a * a21 b)
    (a20 a * a02 b + a21 a * a12 b + a22 a * a22 b).

Definition transpose3 (a : matrix3) : matrix3 :=
  Matrix3 (a00 a) (a10 a) (a20 a)
          (a01 a) (a11 a) (a21 a)
          (a02 a) (a12 a) (a22 a).

Definition dot3_vec (a : matrix3) (v : array3) : array3 :=
  let '(x, y, z) := v in
  (a00 a * x + a01 a * y + a02 a * z,
   a10 a * x + a11 a * y + a12 a * z,
   a20 a * x + a21 a * y + a22 a * z).

(** The slice [m[:3, :3]] of a (4, 4) array. *)
Definition block3 (m : matrix4) : matrix3 :=
  Matrix3 (m00 m) (m01 m) (m02 m)
          (m10 m) (m11 m) (m12 m)
          (m20 m) (m21 m) (m22 m).

(** [np.argmax] of three entries: the first index of the largest one. *)
Definition argmax3 (a b c : R) : nat :=
  if Py.le b a && Py.le c a then 0%nat
  else if Py.le c b then 1%nat
  else 2%nat.

End Np.

(* ===================================================================== *)
(** ** Vector2D                                                           *)
(* ===================================================================== *)

Module Vector2D.

Record t : Type := make { x : R; y : R }.

(** [get_angle]: the angle from [other] to [self], in radians, folded
    back once when it leaves [-pi, pi]. *)
Definition get_angle (self other : t) : R :=
  let angle := Py.atan2 (y self) (x self) - Py.atan2 (y other) (x other) in
  if Py.gt angle PI then angle - 2 * PI
  else if Py.lt angle (- PI) then angle + 2 * PI
  else angle.

Definition magnitude (self : t) : R := Np.norm2 (x self) (y self).

Definition __sub__ (self other : t) : t :=
  make (x self - x other) (y self - y other).

Definition l1_distance (self other : t) : R :=
  Rabs (x self - x other) + Rabs (y self - y other).

Definition l2_distance (self other : t) : R :=
  Np.norm2 (x self - x other) (y self - y other).

Definition squared_length (self : t) : R := x self * x self + y self * y self.

Definition make_unit_vector (self : t) : Py.result t :=
  k <- Py.truediv 1 (magnitude self) ;;
  Py.Ok (make (x self * k) (y self * k)).

Definition __add__ (self other : t) : t :=
  make (x self + x other) (y self + y other).

Definition __mul__ (self : t) (other : R) : t :=
  make (x self * other) (y self * other).

End Vector2D.

(* ===================================================================== *)
(** ** Vector3D and Location                                              *)
(* ===================================================================== *)

Module Vector3D.

Record t : Type := make { x : R; y : R; z : R }.

Definition as_numpy_array (self : t) : Np.array3 := (x self, y self, z self).

Definition as_vector_2D (self : t) : Vector2D.t :=
  Vector2D.make (x self) (y self).

(** [rotate(angle)], [angle] in degrees. *)
Definition rotate (self : t) (angle : R) : t :=
  let x_ := cos (Py.radians angle) * x self
            - sin (Py.radians angle) * y self in
  let y_ := sin (Py.radians angle) * x self
            - cos (Py.radians angle) * y self in
  make x_ y_ (z self).

Definition copy (self : t) : t := make (x self) (y self) (z self).

(** [__eq__] and [__ne__] between two objects of one class. *)
Definition __eq__ (self other : t) : bool :=
  Py.eq (x self) (x other) && Py.eq (y self) (y other)
  && Py.eq (z self) (z other).

Definition __ne__ (self other : t) : bool :=
  Py.ne (x self) (x other) || Py.ne (y self) (y other)
  || Py.ne (z self) (z other).

Definition cross (self other : t) : t :=
  make (y self * z other - z self * y other)
       (z self * x other - x self * z other)
       (x self * y other - y self * x other).

Definition __add__ (self other : t) : t :=
  make (x self + x other) (y self + y other) (z self + z other).

Definition __sub__ (self other : t) : t :=
  make (x self - x other) (y self - y other) (z self - z other).

Definition __mul__ (self : t) (other : R) : t :=
  make (x self * other) (y self * other) (z self * other).

(** [self / other]: a division of Python floats, [ZeroDivisionError] on
    zero. *)
Definition __truediv__ (self : t) (other : R) : Py.result t :=
  x' <- Py.truediv (x self) other ;;
  y' <- Py.truediv (y self) other ;;
  z' <- Py.truediv (z self) other ;;
  Py.Ok (make x' y' z').

Definition __abs__ (self : t) : t :=
  make (Rabs (x self)) (Rabs (y self)) (Rabs (z self)).

Definition as_numpy_array_2D (self : t) : R * R := (x self, y self).

Definition l1_distance (self other : t) : R :=
  Rabs (x self - x other) + Rabs (y self - y other) + Rabs (z self - z other).

Definition l2_distance (self other : t) : R :=
  Np.norm3 (x self - x other) (y self - y other) (z self - z other).

Definition distance (self other : t) : R := l2_distance self other.

Definition distance_2d (self other : t) : R :=
  let '(dx, dy) := as_numpy_array_2D (__sub__ self other) in
  Np.norm2 dx dy.

Definition magnitude (self : t) : R := Np.norm3 (x self) (y self) (z self).


Definition make_unit_vector (self : t) : Py.result t :=
  k <- Py.truediv 1 (magnitude self) ;;
  Py.Ok (make (x self * k) (y self * k) (z self * k)).


End Vector3D.

(** [Location] subclasses [Vector3D] and adds no field; [copy] keeps the
  class of its receiver, so a location and its copy are always compared
  field by field. *)
Module Location.
Definition t : Type := Vector3D.t.
Definition make : R -> R -> R -> t := Vector3D.make.
(** [Location()] *)
Definition default : t := make 0 0 0.

Definition EARTH_RADIUS_EQUA : R := 6378137.
Definition LAT_REF : R := 0.
Definition LON_REF : R := 0.

(** [Location.from_gps(latitude, longitude, altitude)] *)
Definition from_gps (latitude longitude altitude : R) : Py.result t :=
  let scale := cos (LAT_REF * PI / 180) in
  let basex := scale * PI * EARTH_RADIUS_EQUA / 180 * LON_REF in
  t0 <- Py.tan ((90 + LAT_REF) * PI / 360) ;;
  l0 <- Py.log t0 ;;
  let basey := scale * EARTH_RADIUS_EQUA * l0 in
  let x := scale * PI * EARTH_RADIUS_EQUA / 180 * longitude - basex in
  t1 <- Py.tan ((90 + latitude) * PI / 360) ;;
  l1 <- Py.log t1 ;;
  let y := scale * EARTH_RADIUS_EQUA * l1 - basey in
  let y := y * -1 in
  Py.Ok (make x y altitude).
End Location.

(* ===================================================================== *)
(** ** Rotation                                                           *)
(* ===================================================================== *)

Module Rotation.

(** Angles in degrees. *)
Record t : Type := make { pitch : R; yaw : R; roll : R }.

(** [Rotation()] *)
Definition default : t := make 0 0 0.

Definition get_right_vector (self : t) : Vector3D.t :=
  let cy := cos (Py.radians (yaw self)) in
  let sy := sin (Py.radians (yaw self)) in
  let cr := cos (Py.radians (roll self)) in
  let sr := sin (Py.radians (roll self)) in
  let cp := cos (Py.radians (pitch self)) in
  let sp := sin (Py.radians (pitch self)) in
  Vector3D.make (cy * sp * sr - sy * cr) (sy * sp * sr + cy * cr) (- cp * sr).

Definition get_forward_vector (self : t) : Vector3D.t :=
  let cp := cos (Py.radians (pitch self)) in
  let sp := sin (Py.radians (pitch self)) in
  let cy := cos (Py.radians (yaw self)) in
  let sy := sin (Py.radians (yaw self)) in
  Vector3D.make (cp * cy) (cp * sy) sp.

Definition get_up_vector (self : t) : Vector3D.t :=
  let cy := cos (Py.radians (yaw self)) in
  let sy := sin (Py.radians (yaw self)) in
  let cr := cos (Py.radians (roll self)) in
  let sr := sin (Py.radians (roll self)) in
  let cp := cos (Py.radians (pitch self)) in
  let sp := sin (Py.radians (pitch self)) in
  Vector3D.make (- cy * sp * cr - sy * sr) (- sy * sp * cr + cy * sr)
                (cp * cr).

Definition copy (self : t) : t := make (pitch self) (yaw self) (roll self).

Definition __eq__ (self other : t) : bool :=
  Py.eq (pitch self) (pitch other) && Py.eq (yaw self) (yaw other)
  && Py.eq (roll self) (roll other).

Definition __ne__ (self other : t) : bool :=
  Py.ne (pitch self) (pitch other) || Py.ne (yaw self) (yaw other)
  || Py.ne (roll self) (roll other).

End Rotation.

(* ===================================================================== *)
(** ** Quaternion                                                         *)
(* ===================================================================== *)

Module Quaternion.

Record t : Type := make {
  w : R; x : R; y : R; z : R;
  matrix : Np.matrix3
}.

Definition _create_matrix (w x y z : R) : Np.matrix3 :=
  let '(x2, y2, z2) := (x * 2, y * 2, z * 2) in
  let '(xx, xy, xz) := (x * x2, x * y2, x * z2) in
  let '(yy, yz, zz) := (y * y2, y * z2, z * z2) in
  let '(wx, wy, wz) := (w * x2, w * y2, w * z2) in
  Np.Matrix3
    (1 - (yy + zz)) (xy - wz) (xz + wy)
    (xy + wz) (1 - (xx + zz)) (yz - wx)
    (xz - wy) (yz + wx) (1 - (xx + yy)).

(** [Quaternion(w, x, y, z)] *)
Definition __init__ (w x y z : R) : Py.result t :=
  let norm := Np.norm4 w x y z in
  if Py.lt norm 1e-50 then
    Py.Ok (make 0 0 0 0 (_create_matrix 0 0 0 0))
  else
    w' <- Py.truediv w norm ;;
    x' <- Py.truediv x norm ;;
    y' <- Py.truediv y norm ;;
    z' <- Py.truediv z norm ;;
    Py.Ok (make w' x' y' z' (_create_matrix w' x' y' z')).

Definition from_rotation (rotation : Rotation.t) : Py.result t :=
  let roll_by_2 := Py.radians (Rotation.roll rotation) / 2 in
  let pitch_by_2 := Py.radians (Rotation.pitch rotation) / 2 in
  let yaw_by_2 := Py.radians (Rotation.yaw rotation) / 2 in
  let '(cr, sr) := (cos roll_by_2, sin roll_by_2) in
  let '(cp, sp) := (cos pitch_by_2, sin pitch_by_2) in
  let '(cy, sy) := (cos yaw_by_2, sin yaw_by_2) in
  let w := cr * cp * cy + sr * sp * sy in
  let x := cr * sp * sy - sr * cp * cy in
  let y := - cr * sp * cy - sr * cp * sy in
  let z := cr * cp * sy - sr * sp * cy in
  __init__ w x y z.

Definition SINGULARITY_THRESHOLD : R := 0.4999995.
Definition RAD_TO_DEG : R := 180 / PI.

Definition as_rotation (self : t) : Py.result Rotation.t :=
  let singularity_test := z self * x self - w self * y self in
  let yaw_y := 2 * (w self * z self + x self * y self) in
  let yaw_x := 1 - 2 * (y self ^ 2 + z self ^ 2) in
  if Py.lt singularity_test (- SINGULARITY_THRESHOLD) then
    let pitch := - 90 in
    let yaw := Py.atan2 yaw_y yaw_x * RAD_TO_DEG in
    let roll := - yaw - (2 * Py.atan2 (x self) (w self) * RAD_TO_DEG) in
    Py.Ok (Rotation.make pitch yaw roll)
  else if Py.gt singularity_test SINGULARITY_THRESHOLD then
    let pitch := 90 in
    let yaw := Py.atan2 yaw_y yaw_x * RAD_TO_DEG in
    let roll := yaw - (2 * Py.atan2 (x self) (w self) * RAD_TO_DEG) in
    Py.Ok (Rotation.make pitch yaw roll)
  else
    a <- Py.arcsin (2 * singularity_test) ;;
    let pitch := a * RAD_TO_DEG in
    let yaw := Py.atan2 yaw_y yaw_x * RAD_TO_DEG in
    let roll :=
      Py.atan2 (- 2 * (w self * x self + y self * z self))
               (1 - 2 * (x self ^ 2 + y self ^ 2))
      * RAD_TO_DEG in
    Py.Ok (Rotation.make pitch yaw roll).

(** [from_angular_velocity(angular_velocity, dt)] *)
Definition from_angular_velocity (angular_velocity : Vector3D.t) (dt : R)
  : Py.result t :=
  let '(vx, vy, vz) :=
    (Vector3D.x angular_velocity * dt, Vector3D.y angular_velocity * dt,
     Vector3D.z angular_velocity * dt) in
  let magnitude := Np.norm3 vx vy vz in
  let w := cos (magnitude / 2) in
  if Py.lt magnitude 1e-50 then
    __init__ w 0 0 0
  else
    ux <- Py.truediv vx magnitude ;;
    uy <- Py.truediv vy magnitude ;;
    uz <- Py.truediv vz magnitude ;;
    __init__ w (ux * sin (magnitude / 2)) (uy * sin (magnitude / 2))
             (uz * sin (magnitude / 2)).

(** [self * other] *)
Definition __mul__ (self other : t) : Py.result t :=
  let '(q1, q2) := (other, self) in
  let x' := (w q2 * x q1) + (x q2 * w q1) + (y q2 * z q1) - (z q2 * y q1) in
  let y' := (w q2 * y q1) - (x q2 * z q1) + (y q2 * w q1) + (z q2 * x q1) in
  let z' := (w q2 * z q1) + (x q2 * y q1) - (y q2 * x q1) + (z q2 * w q1) in
  let w' := (w q2 * w q1) - (x q2 * x q1) - (y q2 * y q1) - (z q2 * z q1) in
  __init__ w' x' y' z'.

End Quaternion.

(* ===================================================================== *)
(** ** Transform                                                          *)
(* ===================================================================== *)

Module Transform.

(** [_location] and [_rotation] are the snapshot taken when [matrix] was
    last built; [_inv_matrix] is the memoised inverse. *)
Record t : Type := make {
  location : Location.t;
  rotation : Rotation.t;
  matrix : Np.matrix4;
  forward_vector : Vector3D.t;
  _inv_matrix : option Np.matrix4;
  _location : Location.t;
  _rotation : Rotation.t
}.

Definition _create_matrix (location : Location.t) (rotation : Rotation.t)
  : Np.matrix4 :=
  let cy := cos (Py.radians (Rotation.yaw rotation)) in
  let sy := sin (Py.radians (Rotation.yaw rotation)) in
  let cr := cos (Py.radians (Rotation.roll rotation)) in
  let sr := sin (Py.radians (Rotation.roll rotation)) in
  let cp := cos (Py.radians (Rotation.pitch rotation)) in
  let sp := sin (Py.radians (Rotation.pitch rotation)) in
  Np.Matrix4
    (cp * cy) (cy * sp * sr - sy * cr) (- cy * sp * cr - sy * sr)
      (Vector3D.x location)
    (sy * cp) (sy * sp * sr + cy * cr) (- sy * sp * cr + cy * sr)
      (Vector3D.y location)
    sp (- cp * sr) (cp * cr)
      (Vector3D.z location)
    0 0 0 1.

(** [Transform(location, rotation, matrix)]; an absent argument is [None]. *)
Definition __init__ (location : option Location.t)
  (rotation : option Rotation.t) (matrix : option Np.matrix4) : Py.result t :=
  match matrix with
  | Some matrix =>
      let location :=
        Location.make (Np.m03 matrix) (Np.m13 matrix) (Np.m23 matrix) in
      let forward_vector :=
        Vector3D.make (Np.m00 matrix) (Np.m10 matrix) (Np.m20 matrix) in
      let pitch_r := asin (Py.clip (Vector3D.z forward_vector) (-1) 1) in
      q_yaw <- Py.truediv (Vector3D.x forward_vector) (cos pitch_r) ;;
      let yaw_r := acos (Py.clip q_yaw (-1) 1) in
      q_roll <- Py.truediv (Np.m21 matrix) (-1 * cos pitch_r) ;;
      let roll_r := asin (Py.clip q_roll (-1) 1) in
      let rotation :=
        Rotation.make (Py.degrees pitch_r) (Py.degrees yaw_r)
                      (Py.degrees roll_r) in
      Py.Ok (make location rotation matrix forward_vector None
                  (Vector3D.copy location) (Rotation.copy rotation))
  | None =>
      let location :=
        match location with Some l => l | None => Location.default end in
      let rotation :=
        match rotation with Some r => r | None => Rotation.default end in
      let matrix := _create_matrix location rotation in
      let forward_vector :=
        Vector3D.make (Np.m00 matrix) (Np.m10 matrix) (Np.m20 matrix) in
      Py.Ok (make location rotation matrix forward_vector None
                  (Vector3D.copy location) (Rotation.copy rotation))
  end.

(** Field assignments [t.location = l] and [t.rotation = r]; nothing else
    of the object changes. *)
Definition set_location (self : t) (l : Location.t) : t :=
  make l (rotation self) (matrix self) (forward_vector self)
       (_inv_matrix self) (_location self) (_rotation self).

Definition set_rotation (self : t) (r : Rotation.t) : t :=
  make (location self) r (matrix self) (forward_vector self)
       (_inv_matrix self) (_location self) (_rotation self).

(** The first statement of [get_matrix]: the snapshot comparison and, when
    it differs, the rebuild. *)
Definition refresh (self : t) : t :=
  if Vector3D.__ne__ (_location self) (location self)
     || Rotation.__ne__ (_rotation self) (rotation self)
  then
    make (location self) (rotation self)
         (_create_matrix (location self) (rotation self))
         (forward_vector self)
         None
         (Vector3D.copy (location self)) (Rotation.copy (rotation self))
  else self.

(** [get_matrix(inverse)]: the object after the call and the value
    returned. *)
Definition get_matrix (self : t) (inverse : bool)
  : t * Py.result Np.matrix4 :=
  let self := refresh self in
  if inverse then
    match _inv_matrix self with
    | None =>
        match Np.linalg_inv (matrix self) with
        | Py.Ok inv =>
            (make (location self) (rotation self) (matrix self)
                  (forward_vector self) (Some inv)
                  (_location self) (_rotation self),
             Py.Ok inv)
        | Py.Raise e => (self, Py.Raise e)
        end
    | Some inv => (self, Py.Ok inv)
    end
  else (self, Py.Ok (matrix self)).

Section Float32.

(** [ndarray.astype(np.float32)] on one entry. *)
Variable astype_float32 : R -> R.

(** The cast of one row of three entries. *)
Definition astype (row : Np.array3) : Np.array3 :=
  let '(a, b, c) := row in
  (astype_float32 a, astype_float32 b, astype_float32 c).

(** [__transform(points, matrix)] on an (n, 3) array, a list of rows: each
    point is extended by a 1, multiplied by [matrix], cut back to three
    entries and cast. *)
Definition __transform (points : list Np.array3) (matrix : Np.matrix4)
  : list Np.array3 :=
  map (fun p => astype (Np.dot_point matrix p)) points.

(** [flatten()] of a (1, 3) array. *)
Definition flatten (rows : list Np.array3) : Np.array3 :=
  match rows with
  | row :: _ => row
  | [] => (0, 0, 0)
  end.

Definition transform_point (self : t) (point : Np.array3)
  : t * Py.result Np.array3 :=
  let '(self, m) := get_matrix self false in
  (self, m <- m ;; Py.Ok (flatten (__transform [point] m))).

Definition inverse_transform_point (self : t) (point : Np.array3)
  : t * Py.result Np.array3 :=
  let '(self, m) := get_matrix self true in
  (self, m <- m ;; Py.Ok (flatten (__transform [point] m))).

End Float32.

Definition get_angle_and_magnitude (self : t) (target_loc : Location.t)
  : R * R :=
  let target_vec :=
    Vector2D.__sub__ (Vector3D.as_vector_2D target_loc)
                     (Vector3D.as_vector_2D (location self)) in
  let magnitude := Vector2D.magnitude target_vec in
  let angle :=
    if Py.gt magnitude 0 then
      let forward_vector :=
        Vector2D.make (cos (Py.radians (Rotation.yaw (rotation self))))
                      (sin (Py.radians (Rotation.yaw (rotation self)))) in
      Vector2D.get_angle target_vec forward_vector
    else 0 in
  (angle, magnitude).

Definition is_within_distance_ahead (self : t) (dst_loc : Location.t)
  (max_distance : R) : bool :=
  let '(d_angle, norm_dst) := get_angle_and_magnitude self dst_loc in
  if Py.lt norm_dst 0.001 then true
  else if Py.gt norm_dst max_distance then false
  else Py.lt d_angle 90.

(** [inverse_transform()]: the object after the call and the new
    transform. *)
Definition inverse_transform (self : t) : t * Py.result t :=
  let '(self, new_matrix) := get_matrix self true in
  (self, new_matrix <- new_matrix ;; __init__ None None (Some new_matrix)).

(** [self * other] *)
Definition __mul__ (self other : t) : Py.result t :=
  let new_matrix := Np.dot (matrix self) (matrix other) in
  __init__ None None (Some new_matrix).

(** [get_inverse_matrix()] *)
Definition get_inverse_matrix (self : t) : t * Py.result Np.matrix4 :=
  get_matrix self true.

(** The dataclasses [AxisMap.Axis] (the name and the index of a world
    axis) and [AxisMap] (one [Axis] per sensor axis). *)
Module AxisMap.
Record Axis : Type := make_Axis { axis : string; index : nat }.
Record t : Type := make { x : Axis; y : Axis; z : Axis }.
End AxisMap.

(** [get_axis_mapping()]: for each of the first three columns of the
    matrix, the world axis of its entry of largest magnitude. *)
Definition get_axis_mapping (self : t) : t * Py.result AxisMap.t :=
  let '(self, rot_mat) := get_matrix self false in
  (self,
   rot_mat <- rot_mat ;;
   let world_axes := ["x"; "y"; "z"]%string in
   let pick (c0 c1 c2 : R) : AxisMap.Axis :=
     let world_axis_index := Np.argmax3 (Rabs c0) (Rabs c1) (Rabs c2) in
     let world_axis := nth world_axis_index world_axes ""%string in
     AxisMap.make_Axis world_axis world_axis_index in
   Py.Ok (AxisMap.make
            (pick (Np.m00 rot_mat) (Np.m10 rot_mat) (Np.m20 rot_mat))
            (pick (Np.m01 rot_mat) (Np.m11 rot_mat) (Np.m21 rot_mat))
            (pick (Np.m02 rot_mat) (Np.m12 rot_mat) (Np.m22 rot_mat)))).

(** [__eq__] between two transforms. *)
Definition __eq__ (self other : t) : bool :=
  Vector3D.__eq__ (location self) (location other)
  && Rotation.__eq__ (rotation self) (rotation other).

Section Float32Locations.

Variable astype_float32 : R -> R.

Definition transform_location (self : t) (location : Location.t)
  : t * Py.result Location.t :=
  let '(self, transformed_point) :=
    transform_point astype_float32 self
      (Vector3D.as_numpy_array location) in
  (self,
   transformed_point <- transformed_point ;;
   let '(p0, p1, p2) := transformed_point in
   Py.Ok (Location.make p0 p1 p2)).

Definition inverse_transform_location (self : t) (location : Location.t)
  : t * Py.result Location.t :=
  let '(self, transformed_point) :=
    inverse_transform_point astype_float32 self
      (Vector3D.as_numpy_array location) in
  (self,
   transformed_point <- transformed_point ;;
   let '(p0, p1, p2) := transformed_point in
   Py.Ok (Location.make p0 p1 p2)).

(** [[self.transform_location(loc) for loc in locations]]: the calls run
    from left to right on the same object; the first exception ends the
    comprehension. *)
Fixpoint transform_locations (self : t) (locations : list Location.t)
  : t * Py.result (list Location.t) :=
  match locations with
  | [] => (self, Py.Ok [])
  | loc :: rest =>
      match transform_location self loc with
      | (self, Py.Ok l) =>
          match transform_locations self rest with
          | (self, Py.Ok ls) => (self, Py.Ok (l :: ls))
          | (self, Py.Raise e) => (self, Py.Raise e)
          end
      | (self, Py.Raise e) => (self, Py.Raise e)
      end
  end.

Fixpoint inverse_transform_locations (self : t) (locations : list Location.t)
  : t * Py.result (list Location.t) :=
  match locations with
  | [] => (self, Py.Ok [])
  | loc :: rest =>
      match inverse_transform_location self loc with
      | (self, Py.Ok l) =>
          match inverse_transform_locations self rest with
          | (self, Py.Ok ls) => (self, Py.Ok (l :: ls))
          | (self, Py.Raise e) => (self, Py.Raise e)
          end
      | (self, Py.Raise e) => (self, Py.Raise e)
      end
  end.

End Float32Locations.

End Transform.

(** The composition as the specification words it, for comparison with
    [Transform.__mul__]: both operands are read through [get_matrix], so a
    stale matrix is rebuilt before the product.  No function of the source
    computes this. *)
Module Spec.

Definition composition_of_current_poses (self other : Transform.t)
  : Py.result Transform.t :=
  m1 <- snd (Transform.get_matrix self false) ;;
  m2 <- snd (Transform.get_matrix other false) ;;
  Transform.__init__ None None (Some (Np.dot m1 m2)).

End Spec.

(* ===================================================================== *)
(** ** BoundingBox                                                        *)
(* ===================================================================== *)

Module BoundingBox.

Record t : Type := make {
  location : Location.t;
  extent : Vector3D.t;
  rotation : Rotation.t
}.

(** [BoundingBox(location, extent, rotation=None)] *)
Definition __init__ (location : Location.t) (extent : Vector3D.t)
  (rotation : option Rotation.t) : t :=
  make location extent
       (match rotation with Some r => r | None => Rotation.default end).

(** The argument [world_point] of [contains]: a [Location] or an array. *)
Inductive world_point : Type :=
| OfLocation (l : Location.t)
| OfArray (a : Np.array3).

Section Float32.

Variable astype_float32 : R -> R.

(** [a -= b] where [a] holds float32 entries and [b] float64 ones: the
    difference is stored back into [a], hence cast again. *)
Definition isub (a b : Np.array3) : Np.array3 :=
  let '(a0, a1, a2) := a in
  let '(b0, b1, b2) := b in
  (astype_float32 (a0 - b0), astype_float32 (a1 - b1),
   astype_float32 (a2 - b2)).

(** The final test of [contains] on the point in box space. *)
Definition within_extent (self : t) (q : Np.array3) : bool :=
  let '(q0, q1, q2) := q in
  Py.le (Rabs q0) (Vector3D.x (extent self))
  && Py.le (Rabs q1) (Vector3D.y (extent self))
  && Py.le (Rabs q2) (Vector3D.z (extent self)).

(** [contains(world_point, transform)]: the owner transform after the call
    (its inverse is memoised) and the answer. *)
Definition contains (self : t) (world_point : world_point)
  (transform : Transform.t) : Transform.t * Py.result bool :=
  let world_point :=
    match world_point with
    | OfLocation l => (Vector3D.x l, Vector3D.y l, Vector3D.z l)
    | OfArray a => a
    end in
  let '(transform, point_in_bbox_space) :=
    Transform.inverse_transform_point astype_float32 transform world_point in
  (transform,
   point_in_bbox_space <- point_in_bbox_space ;;
   let point_in_bbox_space :=
     isub point_in_bbox_space (Vector3D.as_numpy_array (location self)) in
   Py.Ok (within_extent self point_in_bbox_space)).

End Float32.

(** [as_numpy_array(bottom_only)]: the rows of the corner array. *)
Definition as_numpy_array (self : t) (bottom_only : bool)
  : list Np.array3 :=
  let ex := Vector3D.x (extent self) in
  let ey := Vector3D.y (extent self) in
  let ez := Vector3D.z (extent self) in
  let bottom :=
    [ (ex, ey, - ez); (- ex, ey, - ez); (- ex, - ey, - ez); (ex, - ey, - ez) ] in
  if bottom_only then bottom
  else bottom
       ++ [ (ex, ey, ez); (- ex, ey, ez); (- ex, - ey, ez); (ex, - ey, ez) ].

End BoundingBox.

(* ===================================================================== *)
(** ** Concrete objects used by the examples                              *)
(* ===================================================================== *)

Module Scenario.

(** [Transform(Location(0, 0, 0), Rotation(0, 0, 0))] *)
Definition origin : Transform.t :=
  let location := Location.make 0 0 0 in
  let rotation := Rotation.make 0 0 0 in
  let matrix := Transform._create_matrix location rotation in
  Transform.make location rotation matrix
    (Vector3D.make (Np.m00 matrix) (Np.m10 matrix) (Np.m20 matrix))
    None location rotation.

(** [origin] after [t.location = Location(3, 0, 0)]. *)
Definition moved : Transform.t :=
  Transform.set_location origin (Location.make 3 0 0).


Definition turned_unit_box : BoundingBox.t :=
  BoundingBox.__init__ (Location.make 0 0 0) (Vector3D.make 1 1 1)
                       (Some (Rotation.make 0 45 0)).

End Scenario.

(* ===================================================================== *)
(** ** The life of a transform built from a pose                          *)
(* ===================================================================== *)

Module Lifecycle.

(** What a caller can do to a transform between two reads: build it from a
    location and a rotation, assign either field, or read a matrix. *)
Inductive reachable : Transform.t -> Prop :=
| built (location : option Location.t) (rotation : option Rotation.t)
        (t : Transform.t) :
    Transform.__init__ location rotation None = Py.Ok t -> reachable t
| location_assigned (t : Transform.t) (l : Location.t) :
    reachable t -> reachable (Transform.set_location t l)
| rotation_assigned (t : Transform.t) (r : Rotation.t) :
    reachable t -> reachable (Transform.set_rotation t r)
| matrix_read (t : Transform.t) (inverse : bool) :
    reachable t -> reachable (fst (Transform.get_matrix t inverse)).

End Lifecycle.

(* ===================================================================== *)
(** ** Lane markings                                                      *)
(* ===================================================================== *)

Module LaneMarkingColor.
Inductive t : Set := WHITE | BLUE | GREEN | RED | YELLOW | OTHER.

Definition value (c : t) : Z :=
  match c with
  | WHITE => 0 | BLUE => 1 | GREEN => 2 | RED => 3 | YELLOW => 4 | OTHER => 5
  end%Z.

(** [LaneMarkingColor(v)]: the member of value [v], [ValueError] ([None])
    when there is none. *)
Definition of_value (v : Z) : option t :=
  match v with
  | 0 => Some WHITE | 1 => Some BLUE | 2 => Some GREEN | 3 => Some RED
  | 4 => Some YELLOW | 5 => Some OTHER | _ => None
  end%Z.
End LaneMarkingColor.

Module LaneMarkingType.
Inductive t : Set :=
| OTHER | BROKEN | SOLID | SOLIDSOLID | SOLIDBROKEN | BROKENSOLID
| BROKENBROKEN | BOTTSDOTS | GRASS | CURB | NONE.

Definition value (c : t) : Z :=
  match c with
  | OTHER => 0 | BROKEN => 1 | SOLID => 2 | SOLIDSOLID => 3
  | SOLIDBROKEN => 4 | BROKENSOLID => 5 | BROKENBROKEN => 6
  | BOTTSDOTS => 7 | GRASS => 8 | CURB => 9 | NONE => 10
  end%Z.

Definition of_value (v : Z) : option t :=
  match v with
  | 0 => Some OTHER | 1 => Some BROKEN | 2 => Some SOLID
  | 3 => Some SOLIDSOLID | 4 => Some SOLIDBROKEN | 5 => Some BROKENSOLID
  | 6 => Some BROKENBROKEN | 7 => Some BOTTSDOTS | 8 => Some GRASS
  | 9 => Some CURB | 10 => Some NONE | _ => None
  end%Z.
End LaneMarkingType.

Module LaneChange.
Inductive t : Set := NONE | RIGHT | LEFT | BOTH.

Definition value (c : t) : Z :=
  match c with NONE => 0 | RIGHT => 1 | LEFT => 2 | BOTH => 3 end%Z.

Definition of_value (v : Z) : option t :=
  match v with
  | 0 => Some NONE | 1 => Some RIGHT | 2 => Some LEFT | 3 => Some BOTH
  | _ => None
  end%Z.
End LaneChange.

Module LaneMarking.

Record t : Type := make {
  marking_color : LaneMarkingColor.t;
  marking_type : LaneMarkingType.t;
  lane_change : LaneChange.t
}.

(** [LaneMarking(marking_color, marking_type, lane_change)], the three
    arguments given by their values. *)
Definition __init__ (marking_color marking_type lane_change : Z) : option t :=
  match LaneMarkingColor.of_value marking_color with
  | None => None
  | Some c =>
      match LaneMarkingType.of_value marking_type with
      | None => None
      | Some ty =>
          match LaneChange.of_value lane_change with
          | None => None
          | Some ch => Some (make c ty ch)
          end
      end
  end.

End LaneMarking.

(* ===================================================================== *)
(** * Properties                                                          *)
(* ===================================================================== *)

(** ** Auxiliary facts *)

(** *** Booleans of comparisons *)
Lemma lt_true (a b : R) : a < b -> Py.lt a b = true.
Proof. intro H. unfold Py.lt. destruct (Rlt_dec a b); [reflexivity | contradiction]. Qed.

Lemma lt_false (a b : R) : b <= a -> Py.lt a b = false.
Proof. intro H. unfold Py.lt. destruct (Rlt_dec a b); [lra | reflexivity]. Qed.

Lemma gt_true (a b : R) : b < a -> Py.gt a b = true.
Proof. intro H. unfold Py.gt. destruct (Rgt_dec a b); [reflexivity | unfold Rgt in *; contradiction]. Qed.

Lemma gt_false (a b : R) : a <= b -> Py.gt a b = false.
Proof. intro H. unfold Py.gt. destruct (Rgt_dec a b); [unfold Rgt in *; lra | reflexivity]. Qed.

Lemma ne_false (a : R) : Py.ne a a = false.
Proof. unfold Py.ne. destruct (Req_dec_T a a); [reflexivity | contradiction]. Qed.

Lemma ne_true (a b : R) : a <> b -> Py.ne a b = true.
Proof. intro H. unfold Py.ne. destruct (Req_dec_T a b); [contradiction | reflexivity]. Qed.

Lemma truediv_ok (a b : R) : b <> 0 -> Py.truediv a b = Py.Ok (a / b).
Proof. intro H. unfold Py.truediv. destruct (Req_dec_T b 0); [contradiction | reflexivity]. Qed.

(** *** Angles: periodicity and the range of [atan2] *)
Lemma sin_cos_period_Z (a : R) (n : Z) :
  sin (a + 2 * IZR n * PI) = sin a /\ cos (a + 2 * IZR n * PI) = cos a.
Proof.
  destruct (Z_le_gt_dec 0 n) as [Hn | Hn].
  - rewrite <- (Z2Nat.id n) by assumption. rewrite <- INR_IZR_INZ.
    split; [apply sin_period | apply cos_period].
  - assert (Hm : (0 <= - n)%Z) by lia.
    pose proof (sin_period (a + 2 * IZR n * PI) (Z.to_nat (- n))) as Hs.
    pose proof (cos_period (a + 2 * IZR n * PI) (Z.to_nat (- n))) as Hc.
    rewrite INR_IZR_INZ, Z2Nat.id, opp_IZR in Hs, Hc by assumption.
    replace (a + 2 * IZR n * PI + 2 * - IZR n * PI) with a in Hs, Hc by ring.
    split; congruence.
Qed.

Lemma reduce_angle (a : R) :
  exists n : Z, - PI < a + 2 * IZR n * PI <= PI.
Proof.
  pose proof PI_RGT_0 as Hpi.
  set (r := (a - PI) / (2 * PI)).
  destruct (archimed (- r - 1)) as [H1 H2].
  exists (up (- r - 1)).
  assert (Ha : a = PI + r * (2 * PI)) by (unfold r; field; lra).
  set (u := IZR (up (- r - 1))) in *.
  rewrite Ha. split; nra.
Qed.

Lemma atan_pos (t : R) : 0 < t -> 0 < atan t.
Proof. intro H. rewrite <- atan_0. apply atan_increasing. assumption. Qed.

Lemma atan_neg (t : R) : t < 0 -> atan t < 0.
Proof. intro H. rewrite <- atan_0. apply atan_increasing. assumption. Qed.

Lemma atan2_bound (y x : R) : - PI < Py.atan2 y x <= PI.
Proof.
  pose proof PI_RGT_0 as Hpi.
  unfold Py.atan2.
  destruct (Rlt_dec 0 x) as [Hx | Hx].
  - pose proof (atan_bound (y / x)). lra.
  - destruct (Rlt_dec x 0) as [Hx' | Hx'].
    + pose proof (atan_bound (y / x)) as Hb.
      destruct (Rle_dec 0 y) as [Hy | Hy].
      * assert (y / x <= 0).
        { unfold Rdiv. assert (/ x < 0) by (apply Rinv_lt_0_compat; assumption). nra. }
        assert (atan (y / x) <= 0).
        { destruct (Req_dec (y / x) 0) as [E | E].
          - rewrite E, atan_0. lra.
          - left. apply atan_neg. lra. }
        lra.
      * assert (0 < y / x).
        { unfold Rdiv. assert (/ x < 0) by (apply Rinv_lt_0_compat; assumption). nra. }
        pose proof (atan_pos _ H). lra.
    + destruct (Rlt_dec 0 y); [lra |]. destruct (Rlt_dec y 0); lra.
Qed.

(** The angle of a point given in polar form is its argument. *)
Lemma atan2_polar (k a : R) :
  0 < k -> - PI < a <= PI -> Py.atan2 (k * sin a) (k * cos a) = a.
Proof.
  intros Hk [Hlo Hhi].
  pose proof PI_RGT_0 as Hpi.
  pose proof (sin2_cos2 a) as Hsc. unfold Rsqr in Hsc.
  unfold Py.atan2.
  destruct (Rlt_dec 0 (k * cos a)) as [Hx | Hx].
  - assert (Hc : 0 < cos a) by nra.
    assert (Hr : - (PI / 2) < a < PI / 2).
    { split.
      - destruct (Rlt_dec (- (PI / 2)) a) as [|Hn]; [assumption | exfalso].
        assert (cos (- a) <= 0) by (apply cos_le_0; lra).
        rewrite cos_neg in *. lra.
      - destruct (Rlt_dec a (PI / 2)) as [|Hn]; [assumption | exfalso].
        assert (cos a <= 0) by (apply cos_le_0; lra). lra. }
    replace (k * sin a / (k * cos a)) with (tan a)
      by (unfold tan; field; split; lra).
    apply atan_tan. assumption.
  - destruct (Rlt_dec (k * cos a) 0) as [Hx' | Hx'].
    + assert (Hc : cos a < 0) by nra.
      destruct (Rle_dec 0 (k * sin a)) as [Hy | Hy].
      * assert (Hs : 0 <= sin a) by nra.
        assert (Hr : PI / 2 < a).
        { destruct (Rlt_dec (PI / 2) a) as [|Hn]; [assumption | exfalso].
          destruct (Rle_dec (- (PI / 2)) a).
          - assert (0 <= cos a) by (apply cos_ge_0; lra). lra.
          - assert (sin a < 0) by (apply sin_lt_0_var; lra). lra. }
        replace (k * sin a / (k * cos a)) with (tan (a - PI)).
        2:{ unfold tan. rewrite sin_minus, cos_minus, sin_PI, cos_PI.
            field. split; lra. }
        rewrite atan_tan by lra. ring.
      * assert (Hs : sin a < 0) by nra.
        assert (Hr : a < - (PI / 2)).
        { destruct (Rlt_dec a (- (PI / 2))) as [|Hn]; [assumption | exfalso].
          destruct (Rle_dec a (PI / 2)).
          - assert (0 <= cos a) by (apply cos_ge_0; lra). lra.
          - assert (0 <= sin a) by (apply sin_ge_0; lra). lra. }
        replace (k * sin a / (k * cos a)) with (tan (a + PI)).
        2:{ unfold tan. rewrite sin_plus, cos_plus, sin_PI, cos_PI.
            field. split; lra. }
        rewrite atan_tan by lra. ring.
    + assert (Hc : cos a = 0) by nra.
      assert (Hs1 : sin a * sin a = 1) by nra.
      destruct (Rlt_dec 0 (k * sin a)) as [Hy | Hy].
      * assert (Hs : 0 < sin a) by nra.
        destruct (Rtotal_order a (PI / 2)) as [Hl | [He | Hg]].
        -- exfalso. destruct (Rlt_dec (- (PI / 2)) a).
           ++ assert (0 < cos a) by (apply cos_gt_0; lra). lra.
           ++ assert (sin a < 0) by (apply sin_lt_0_var; lra). lra.
        -- symmetry. assumption.
        -- exfalso. assert (cos a < 0) by (apply cos_lt_0; lra). lra.
      * destruct (Rlt_dec (k * sin a) 0) as [Hy' | Hy'].
        -- assert (Hs : sin a < 0) by nra.
           destruct (Rtotal_order a (- (PI / 2))) as [Hl | [He | Hg]].
           ++ exfalso. assert (cos (- a) < 0) by (apply cos_lt_0; lra).
              rewrite cos_neg in *. lra.
           ++ symmetry. assumption.
           ++ exfalso. destruct (Rlt_dec a (PI / 2)).
              ** assert (0 < cos a) by (apply cos_gt_0; lra). lra.
              ** assert (0 <= sin a) by (apply sin_ge_0; lra). lra.
        -- exfalso. nra.
Qed.

Lemma atan2_polar_mod (k a : R) :
  0 < k ->
  exists n : Z, Py.atan2 (k * sin a) (k * cos a) = a + 2 * IZR n * PI.
Proof.
  intro Hk.
  destruct (reduce_angle a) as [n Hn].
  exists n.
  destruct (sin_cos_period_Z a n) as [Hs Hc].
  rewrite <- Hs, <- Hc.
  apply atan2_polar; assumption.
Qed.

Lemma half_angle_identities (cr sr cp sp cy sy : R) :
  sr * sr + cr * cr = 1 -> sp * sp + cp * cp = 1 -> sy * sy + cy * cy = 1 ->
  let w := cr * cp * cy + sr * sp * sy in
  let x := cr * sp * sy - sr * cp * cy in
  let y := - cr * sp * cy - sr * cp * sy in
  let z := cr * cp * sy - sr * sp * cy in
  w * w + x * x + y * y + z * z = 1
  /\ 2 * (z * x - w * y) = 2 * sp * cp
  /\ 2 * (w * z + x * y) = (cp * cp - sp * sp) * (2 * sy * cy)
  /\ 1 - 2 * (y ^ 2 + z ^ 2) = (cp * cp - sp * sp) * (cy * cy - sy * sy)
  /\ - 2 * (w * x + y * z) = (cp * cp - sp * sp) * (2 * sr * cr)
  /\ 1 - 2 * (x ^ 2 + y ^ 2) = (cp * cp - sp * sp) * (cr * cr - sr * sr).
Proof.
  intros Hr Hp Hy w x y z. subst w x y z.
  simpl pow. repeat split; nsatz.
Qed.

Lemma radians_0 : Py.radians 0 = 0.
Proof. unfold Py.radians. ring. Qed.

Lemma norm4_sqr (w x y z : R) :
  Np.norm4 w x y z * Np.norm4 w x y z = w * w + x * x + y * y + z * z.
Proof. unfold Np.norm4. apply sqrt_sqrt. nra. Qed.

(** *** Equality tests and copies *)
Lemma Vector3D_copy_id (v : Vector3D.t) : Vector3D.copy v = v.
Proof. destruct v. reflexivity. Qed.

Lemma Rotation_copy_id (r : Rotation.t) : Rotation.copy r = r.
Proof. destruct r. reflexivity. Qed.

Lemma Vector3D_ne_false (a b : Vector3D.t) :
  Vector3D.__ne__ a b = false <-> a = b.
Proof.
  destruct a as [ax ay az], b as [bx b_y bz].
  unfold Vector3D.__ne__, Py.ne. cbn.
  destruct (Req_dec_T ax bx), (Req_dec_T ay b_y), (Req_dec_T az bz); cbn;
    split; intro H; try discriminate; try reflexivity;
    try (subst; reflexivity); injection H; intros; contradiction.
Qed.

Lemma Rotation_ne_false (a b : Rotation.t) :
  Rotation.__ne__ a b = false <-> a = b.
Proof.
  destruct a as [ap ay ar], b as [bp b_y br].
  unfold Rotation.__ne__, Py.ne. cbn.
  destruct (Req_dec_T ap bp), (Req_dec_T ay b_y), (Req_dec_T ar br); cbn;
    split; intro H; try discriminate; try reflexivity;
    try (subst; reflexivity); injection H; intros; contradiction.
Qed.

Lemma refresh_current (t : Transform.t) :
  Transform._location t = Transform.location t ->
  Transform._rotation t = Transform.rotation t ->
  Transform.refresh t = t.
Proof.
  intros Hl Hr. unfold Transform.refresh.
  rewrite (proj2 (Vector3D_ne_false _ _) Hl).
  rewrite (proj2 (Rotation_ne_false _ _) Hr). reflexivity.
Qed.

Lemma refresh_stale (t : Transform.t) :
  Transform._location t <> Transform.location t
  \/ Transform._rotation t <> Transform.rotation t ->
  Transform.refresh t
  = Transform.make (Transform.location t) (Transform.rotation t)
      (Transform._create_matrix (Transform.location t) (Transform.rotation t))
      (Transform.forward_vector t) None
      (Transform.location t) (Transform.rotation t).
Proof.
  intro H. unfold Transform.refresh.
  rewrite Vector3D_copy_id, Rotation_copy_id.
  destruct (Vector3D.__ne__ (Transform._location t) (Transform.location t)) eqn:El;
    [reflexivity |].
  destruct (Rotation.__ne__ (Transform._rotation t) (Transform.rotation t)) eqn:Er;
    [reflexivity |].
  apply Vector3D_ne_false in El. apply Rotation_ne_false in Er.
  destruct H; contradiction.
Qed.

(** *** The inverse of a matrix *)

Ltac np_unfold :=
  cbv beta iota zeta delta
    [Np.dot Np.adjugate Np.det Np.scale Np.identity4 Np.dot_point
     Np.m00 Np.m01 Np.m02 Np.m03 Np.m10 Np.m11 Np.m12 Np.m13
     Np.m20 Np.m21 Np.m22 Np.m23 Np.m30 Np.m31 Np.m32 Np.m33].

Lemma matrix4_ext (a b : Np.matrix4) :
  Np.m00 a = Np.m00 b -> Np.m01 a = Np.m01 b -> Np.m02 a = Np.m02 b ->
  Np.m03 a = Np.m03 b -> Np.m10 a = Np.m10 b -> Np.m11 a = Np.m11 b ->
  Np.m12 a = Np.m12 b -> Np.m13 a = Np.m13 b -> Np.m20 a = Np.m20 b ->
  Np.m21 a = Np.m21 b -> Np.m22 a = Np.m22 b -> Np.m23 a = Np.m23 b ->
  Np.m30 a = Np.m30 b -> Np.m31 a = Np.m31 b -> Np.m32 a = Np.m32 b ->
  Np.m33 a = Np.m33 b -> a = b.
Proof.
  destruct a, b. cbv beta iota delta
    [Np.m00 Np.m01 Np.m02 Np.m03 Np.m10 Np.m11 Np.m12 Np.m13
     Np.m20 Np.m21 Np.m22 Np.m23 Np.m30 Np.m31 Np.m32 Np.m33].
  intros. subst. reflexivity.
Qed.

Ltac matrix4_ring := apply matrix4_ext; np_unfold; ring.

Lemma adjugate_left (a : Np.matrix4) :
  Np.dot (Np.adjugate a) a = Np.scale (Np.det a) Np.identity4.
Proof. destruct a. matrix4_ring. Qed.

Lemma adjugate_right (a : Np.matrix4) :
  Np.dot a (Np.adjugate a) = Np.scale (Np.det a) Np.identity4.
Proof. destruct a. matrix4_ring. Qed.

Lemma dot_scale_left (k : R) (a b : Np.matrix4) :
  Np.dot (Np.scale k a) b = Np.scale k (Np.dot a b).
Proof. destruct a, b. matrix4_ring. Qed.

Lemma dot_scale_right (k : R) (a b : Np.matrix4) :
  Np.dot a (Np.scale k b) = Np.scale k (Np.dot a b).
Proof. destruct a, b. matrix4_ring. Qed.

Lemma scale_scale_identity (k : R) :
  k <> 0 -> Np.scale (/ k) (Np.scale k Np.identity4) = Np.identity4.
Proof.
  intro H. apply matrix4_ext; np_unfold; field; assumption.
Qed.

Lemma linalg_inv_regular (a : Np.matrix4) :
  Np.det a <> 0 ->
  exists inv, Np.linalg_inv a = Py.Ok inv
    /\ Np.dot inv a = Np.identity4 /\ Np.dot a inv = Np.identity4.
Proof.
  intro H. unfold Np.linalg_inv.
  destruct (Req_dec_T (Np.det a) 0) as [E | _]; [contradiction |].
  eexists. split; [reflexivity |]. split.
  - rewrite dot_scale_left, adjugate_left. apply scale_scale_identity, H.
  - rewrite dot_scale_right, adjugate_right. apply scale_scale_identity, H.
Qed.

Lemma det_create_matrix (l : Location.t) (r : Rotation.t) :
  Np.det (Transform._create_matrix l r) = 1.
Proof.
  unfold Transform._create_matrix. np_unfold.
  pose proof (sin2_cos2 (Py.radians (Rotation.yaw r))) as Hy.
  pose proof (sin2_cos2 (Py.radians (Rotation.roll r))) as Hr.
  pose proof (sin2_cos2 (Py.radians (Rotation.pitch r))) as Hp.
  unfold Rsqr in *.
  nsatz.
Qed.

(** *** The three branches of [as_rotation] *)
Lemma as_rotation_south (q : Quaternion.t) :
  Quaternion.z q * Quaternion.x q - Quaternion.w q * Quaternion.y q
    < - Quaternion.SINGULARITY_THRESHOLD ->
  let yaw :=
    Py.atan2 (2 * (Quaternion.w q * Quaternion.z q
                   + Quaternion.x q * Quaternion.y q))
             (1 - 2 * (Quaternion.y q ^ 2 + Quaternion.z q ^ 2))
    * Quaternion.RAD_TO_DEG in
  Quaternion.as_rotation q
  = Py.Ok (Rotation.make (- 90) yaw
             (- yaw - 2 * Py.atan2 (Quaternion.x q) (Quaternion.w q)
                      * Quaternion.RAD_TO_DEG)).
Proof.
  intros H yaw. unfold Quaternion.as_rotation.
  rewrite lt_true by assumption. reflexivity.
Qed.

Lemma as_rotation_north (q : Quaternion.t) :
  Quaternion.SINGULARITY_THRESHOLD
    < Quaternion.z q * Quaternion.x q - Quaternion.w q * Quaternion.y q ->
  let yaw :=
    Py.atan2 (2 * (Quaternion.w q * Quaternion.z q
                   + Quaternion.x q * Quaternion.y q))
             (1 - 2 * (Quaternion.y q ^ 2 + Quaternion.z q ^ 2))
    * Quaternion.RAD_TO_DEG in
  Quaternion.as_rotation q
  = Py.Ok (Rotation.make 90 yaw
             (yaw - 2 * Py.atan2 (Quaternion.x q) (Quaternion.w q)
                    * Quaternion.RAD_TO_DEG)).
Proof.
  intros H yaw. unfold Quaternion.as_rotation.
  assert (HT : 0 < Quaternion.SINGULARITY_THRESHOLD)
    by (unfold Quaternion.SINGULARITY_THRESHOLD; lra).
  rewrite lt_false by lra. rewrite gt_true by assumption. reflexivity.
Qed.

Lemma as_rotation_regular (q : Quaternion.t) :
  let s := Quaternion.z q * Quaternion.x q
           - Quaternion.w q * Quaternion.y q in
  - Quaternion.SINGULARITY_THRESHOLD <= s <= Quaternion.SINGULARITY_THRESHOLD ->
  Quaternion.as_rotation q
  = Py.Ok (Rotation.make
             (asin (2 * s) * Quaternion.RAD_TO_DEG)
             (Py.atan2 (2 * (Quaternion.w q * Quaternion.z q
                             + Quaternion.x q * Quaternion.y q))
                       (1 - 2 * (Quaternion.y q ^ 2 + Quaternion.z q ^ 2))
              * Quaternion.RAD_TO_DEG)
             (Py.atan2 (- 2 * (Quaternion.w q * Quaternion.x q
                               + Quaternion.y q * Quaternion.z q))
                       (1 - 2 * (Quaternion.x q ^ 2 + Quaternion.y q ^ 2))
              * Quaternion.RAD_TO_DEG)).
Proof.
  intros s [Hlo Hhi]. unfold Quaternion.as_rotation. fold s.
  rewrite lt_false by assumption. rewrite gt_false by assumption.
  unfold Quaternion.SINGULARITY_THRESHOLD in *.
  unfold Py.arcsin.
  destruct (Rle_dec (-1) (2 * s)); [| lra].
  destruct (Rle_dec (2 * s) 1); [| lra].
  reflexivity.
Qed.

Lemma atan2_0_1 : Py.atan2 0 1 = 0.
Proof.
  unfold Py.atan2. destruct (Rlt_dec 0 1); [| lra].
  replace (0 / 1) with 0 by field. apply atan_0.
Qed.

(** *** Bearing and distance *)
Lemma get_angle_bound (a b : Vector2D.t) :
  - PI <= Vector2D.get_angle a b <= PI.
Proof.
  pose proof PI_RGT_0 as Hpi.
  unfold Vector2D.get_angle.
  pose proof (atan2_bound (Vector2D.y a) (Vector2D.x a)).
  pose proof (atan2_bound (Vector2D.y b) (Vector2D.x b)).
  unfold Py.gt, Py.lt.
  destruct (Rgt_dec _ PI) as [H1 | H1]; unfold Rgt in *; [lra |].
  destruct (Rlt_dec _ (- PI)); lra.
Qed.

(** *** Transforms built from a matrix *)
Lemma clip_inside (v : R) : -1 <= v <= 1 -> Py.clip v (-1) 1 = v.
Proof.
  intro H. unfold Py.clip.
  destruct (Rlt_dec v (-1)); [lra |]. destruct (Rlt_dec 1 v); [lra | reflexivity].
Qed.

Lemma clip_range (v : R) : -1 <= Py.clip v (-1) 1 <= 1.
Proof.
  unfold Py.clip.
  destruct (Rlt_dec v (-1)); [lra |]. destruct (Rlt_dec 1 v); lra.
Qed.

Lemma cos_asin_pos (v : R) : -1 < v < 1 -> 0 < cos (asin v).
Proof.
  intro H. pose proof (asin_bound_lt v H). apply cos_gt_0; lra.
Qed.

(** A matrix whose entry [2, 0] lies strictly between -1 and 1 gives a
    transform, located at the matrix's translation column. *)
Lemma init_matrix_ok (m : Np.matrix4) :
  -1 < Np.m20 m < 1 ->
  exists r, Transform.__init__ None None (Some m) = Py.Ok r
    /\ Transform.location r = Location.make (Np.m03 m) (Np.m13 m) (Np.m23 m)
    /\ Transform.matrix r = m
    /\ Transform._inv_matrix r = None
    /\ Transform._location r = Transform.location r
    /\ Transform._rotation r = Transform.rotation r.
Proof.
  intro H. unfold Transform.__init__.
  cbn [Vector3D.x Vector3D.y Vector3D.z].
  rewrite (clip_inside (Np.m20 m)) by lra.
  pose proof (cos_asin_pos _ H) as Hc.
  rewrite !truediv_ok by lra.
  cbn [Py.bind].
  eexists. split; [reflexivity |].
  cbn [Transform.location Transform.matrix Transform._inv_matrix
       Transform._location Transform._rotation Transform.rotation].
  repeat split.
Qed.

Lemma create_matrix_unrotated (l : Location.t) :
  Transform._create_matrix l (Rotation.make 0 0 0)
  = Np.Matrix4 1 0 0 (Vector3D.x l)
               0 1 0 (Vector3D.y l)
               0 0 1 (Vector3D.z l)
               0 0 0 1.
Proof.
  unfold Transform._create_matrix.
  cbn [Rotation.yaw Rotation.pitch Rotation.roll].
  rewrite radians_0, cos_0, sin_0.
  apply matrix4_ext; np_unfold; ring.
Qed.

(** *** From Euler angles to a quaternion and back *)

(** The components that [from_rotation] passes to the constructor have norm
    1, and the quantities [as_rotation] reads off them are the sine of the
    pitch and the cosine of the pitch times the sine and cosine of the yaw
    and of the roll. *)
Lemma from_rotation_components (rotation : Rotation.t) :
  let roll_by_2 := Py.radians (Rotation.roll rotation) / 2 in
  let pitch_by_2 := Py.radians (Rotation.pitch rotation) / 2 in
  let yaw_by_2 := Py.radians (Rotation.yaw rotation) / 2 in
  let qw := cos roll_by_2 * cos pitch_by_2 * cos yaw_by_2
            + sin roll_by_2 * sin pitch_by_2 * sin yaw_by_2 in
  let qx := cos roll_by_2 * sin pitch_by_2 * sin yaw_by_2
            - sin roll_by_2 * cos pitch_by_2 * cos yaw_by_2 in
  let qy := - cos roll_by_2 * sin pitch_by_2 * cos yaw_by_2
            - sin roll_by_2 * cos pitch_by_2 * sin yaw_by_2 in
  let qz := cos roll_by_2 * cos pitch_by_2 * sin yaw_by_2
            - sin roll_by_2 * sin pitch_by_2 * cos yaw_by_2 in
  qw * qw + qx * qx + qy * qy + qz * qz = 1
  /\ 2 * (qz * qx - qw * qy) = sin (Py.radians (Rotation.pitch rotation))
  /\ 2 * (qw * qz + qx * qy)
     = cos (Py.radians (Rotation.pitch rotation))
       * sin (Py.radians (Rotation.yaw rotation))
  /\ 1 - 2 * (qy ^ 2 + qz ^ 2)
     = cos (Py.radians (Rotation.pitch rotation))
       * cos (Py.radians (Rotation.yaw rotation))
  /\ - 2 * (qw * qx + qy * qz)
     = cos (Py.radians (Rotation.pitch rotation))
       * sin (Py.radians (Rotation.roll rotation))
  /\ 1 - 2 * (qx ^ 2 + qy ^ 2)
     = cos (Py.radians (Rotation.pitch rotation))
       * cos (Py.radians (Rotation.roll rotation)).
Proof.
  intros roll_by_2 pitch_by_2 yaw_by_2 qw qx qy qz.
  pose proof (sin2_cos2 roll_by_2) as Hr.
  pose proof (sin2_cos2 pitch_by_2) as Hp.
  pose proof (sin2_cos2 yaw_by_2) as Hy.
  unfold Rsqr in Hr, Hp, Hy.
  destruct (half_angle_identities _ _ _ _ _ _ Hr Hp Hy)
    as (H1 & H2 & H3 & H4 & H5 & H6).
  fold qw qx qy qz in H1, H2, H3, H4, H5, H6.
  replace (Py.radians (Rotation.pitch rotation)) with (2 * pitch_by_2)
    by (unfold pitch_by_2; field).
  replace (Py.radians (Rotation.yaw rotation)) with (2 * yaw_by_2)
    by (unfold yaw_by_2; field).
  replace (Py.radians (Rotation.roll rotation)) with (2 * roll_by_2)
    by (unfold roll_by_2; field).
  rewrite !sin_2a, !cos_2a.
  repeat split.
  - exact H1.
  - rewrite H2. ring.
  - rewrite H3. ring.
  - rewrite H4. ring.
  - rewrite H5. ring.
  - rewrite H6. ring.
Qed.

Lemma from_rotation_value (rotation : Rotation.t) :
  let roll_by_2 := Py.radians (Rotation.roll rotation) / 2 in
  let pitch_by_2 := Py.radians (Rotation.pitch rotation) / 2 in
  let yaw_by_2 := Py.radians (Rotation.yaw rotation) / 2 in
  let qw := cos roll_by_2 * cos pitch_by_2 * cos yaw_by_2
            + sin roll_by_2 * sin pitch_by_2 * sin yaw_by_2 in
  let qx := cos roll_by_2 * sin pitch_by_2 * sin yaw_by_2
            - sin roll_by_2 * cos pitch_by_2 * cos yaw_by_2 in
  let qy := - cos roll_by_2 * sin pitch_by_2 * cos yaw_by_2
            - sin roll_by_2 * cos pitch_by_2 * sin yaw_by_2 in
  let qz := cos roll_by_2 * cos pitch_by_2 * sin yaw_by_2
            - sin roll_by_2 * sin pitch_by_2 * cos yaw_by_2 in
  Quaternion.from_rotation rotation
  = Py.Ok (Quaternion.make qw qx qy qz
             (Quaternion._create_matrix qw qx qy qz)).
Proof.
  intros roll_by_2 pitch_by_2 yaw_by_2 qw qx qy qz.
  destruct (from_rotation_components rotation) as (H1 & _).
  fold roll_by_2 pitch_by_2 yaw_by_2 in H1. fold qw qx qy qz in H1.
  unfold Quaternion.from_rotation.
  cbv zeta.
  fold roll_by_2 pitch_by_2 yaw_by_2.
  cbv beta iota.
  fold qw qx qy qz.
  unfold Quaternion.__init__.
  assert (Hn : Np.norm4 qw qx qy qz = 1).
  { unfold Np.norm4. rewrite H1. apply sqrt_1. }
  rewrite Hn.
  rewrite lt_false by lra.
  rewrite !truediv_ok by lra.
  cbn [Py.bind].
  replace (qw / 1) with qw by field.
  replace (qx / 1) with qx by field.
  replace (qy / 1) with qy by field.
  replace (qz / 1) with qz by field.
  reflexivity.
Qed.

Lemma degrees_of_turns (d : R) (n : Z) :
  (Py.radians d + 2 * IZR n * PI) * Quaternion.RAD_TO_DEG = d + 360 * IZR n.
Proof.
  unfold Py.radians, Quaternion.RAD_TO_DEG.
  pose proof PI_RGT_0. field. lra.
Qed.

(* ===================================================================== *)
(** ** The lazily rebuilt matrix of a transform                           *)
(* ===================================================================== *)

(** C1.  When the snapshot [_location], [_rotation] differs from the current
    [location], [rotation], [get_matrix()] returns the matrix built from the
    current pose, stores it, refreshes the snapshot and drops the memoised
    inverse, so the next [get_matrix(inverse=True)] (and also a first call
    with [inverse=True]) returns a matrix that is a two-sided inverse of the
    rebuilt one.  When the snapshot equals the current pose the object is
    left untouched and the stored matrix is returned. *)
Theorem get_matrix_rebuilds_when_stale (t : Transform.t) :
  (Transform._location t <> Transform.location t
   \/ Transform._rotation t <> Transform.rotation t ->
   let rebuilt :=
     Transform._create_matrix (Transform.location t) (Transform.rotation t) in
   let t1 := fst (Transform.get_matrix t false) in
   snd (Transform.get_matrix t false) = Py.Ok rebuilt
   /\ Transform.matrix t1 = rebuilt
   /\ Transform._inv_matrix t1 = None
   /\ Transform.location t1 = Transform.location t
   /\ Transform.rotation t1 = Transform.rotation t
   /\ Transform._location t1 = Transform.location t
   /\ Transform._rotation t1 = Transform.rotation t
   /\ exists inv,
        snd (Transform.get_matrix t1 true) = Py.Ok inv
        /\ snd (Transform.get_matrix t true) = Py.Ok inv
        /\ Np.dot inv rebuilt = Np.identity4
        /\ Np.dot rebuilt inv = Np.identity4)
  /\ (Transform._location t = Transform.location t ->
      Transform._rotation t = Transform.rotation t ->
      Transform.get_matrix t false = (t, Py.Ok (Transform.matrix t))).
Proof.
  split.
  - intros Hstale rebuilt t1.
    assert (Ht1 : t1 = Transform.make (Transform.location t)
                         (Transform.rotation t) rebuilt
                         (Transform.forward_vector t) None
                         (Transform.location t) (Transform.rotation t)).
    { unfold t1, Transform.get_matrix. rewrite refresh_stale by assumption.
      reflexivity. }
    assert (Hret : snd (Transform.get_matrix t false) = Py.Ok rebuilt).
    { unfold Transform.get_matrix. rewrite refresh_stale by assumption.
      reflexivity. }
    split; [exact Hret |].
    rewrite Ht1. cbn [Transform.matrix Transform._inv_matrix Transform.location
                      Transform.rotation Transform._location Transform._rotation].
    repeat (split; [reflexivity |]).
    destruct (linalg_inv_regular rebuilt) as [inv [Hinv [Hl Hr]]].
    { unfold rebuilt. rewrite det_create_matrix. lra. }
    exists inv. repeat split; try assumption.
    + unfold Transform.get_matrix. rewrite refresh_current by reflexivity.
      cbn [Transform._inv_matrix Transform.matrix]. rewrite Hinv. reflexivity.
    + unfold Transform.get_matrix. rewrite refresh_stale by assumption.
      cbn [Transform._inv_matrix Transform.matrix]. fold rebuilt.
      rewrite Hinv. reflexivity.
  - intros Hl Hr. unfold Transform.get_matrix.
    rewrite refresh_current by assumption. reflexivity.
Qed.

(** The theorem at a transform whose location was moved from the origin to
    (3, 0, 0), and at the unmoved one. *)
Lemma get_matrix_rebuilds_when_stale_witness :
  snd (Transform.get_matrix Scenario.moved false)
  = Py.Ok (Transform._create_matrix (Location.make 3 0 0) (Rotation.make 0 0 0))
  /\ Transform.get_matrix Scenario.origin false
     = (Scenario.origin, Py.Ok (Transform.matrix Scenario.origin)).
Proof.
  split.
  - apply (proj1 (get_matrix_rebuilds_when_stale Scenario.moved)).
    left. cbn. intro H. injection H. intros. lra.
  - apply (proj2 (get_matrix_rebuilds_when_stale Scenario.origin));
      reflexivity.
Defined.

(** C2.  [__mul__] multiplies the stored matrices and never calls
    [get_matrix]: assigning a new location or rotation to either operand
    leaves the product unchanged.  For the transform moved from the origin
    to (3, 0, 0), times the transform at the origin, the product sits at
    (0, 0, 0), whereas the product of the matrices of the current poses
    sits at (3, 0, 0). *)
Theorem mul_reads_stored_matrices :
  (forall (t u : Transform.t) (l : Location.t) (r : Rotation.t),
     Transform.__mul__ (Transform.set_location t l) u = Transform.__mul__ t u
     /\ Transform.__mul__ (Transform.set_rotation t r) u
        = Transform.__mul__ t u
     /\ Transform.__mul__ t (Transform.set_location u l)
        = Transform.__mul__ t u
     /\ Transform.__mul__ t (Transform.set_rotation u r)
        = Transform.__mul__ t u)
  /\ (exists p, Transform.__mul__ Scenario.moved Scenario.origin = Py.Ok p
        /\ Transform.location p = Location.make 0 0 0)
  /\ (exists p, Spec.composition_of_current_poses Scenario.moved Scenario.origin
                = Py.Ok p
        /\ Transform.location p = Location.make 3 0 0).
Proof.
  split; [intros; repeat split |]. split.
  - unfold Transform.__mul__, Scenario.moved, Scenario.origin.
    cbn [Transform.set_location Transform.matrix].
    rewrite create_matrix_unrotated.
    cbn [Vector3D.x Vector3D.y Vector3D.z Location.make].
    match goal with |- context [Some ?m] =>
      destruct (init_matrix_ok m) as [p [Hp [Hl _]]] end.
    { np_unfold. lra. }
    exists p. split; [exact Hp |]. rewrite Hl. np_unfold.
    unfold Location.make. f_equal; ring.
  - unfold Spec.composition_of_current_poses.
    assert (Hm : snd (Transform.get_matrix Scenario.moved false)
                 = Py.Ok (Transform._create_matrix (Location.make 3 0 0)
                                                   (Rotation.make 0 0 0))).
    { unfold Transform.get_matrix. rewrite refresh_stale.
      - reflexivity.
      - left. cbn. intro H. injection H. intros. lra. }
    assert (Ho : snd (Transform.get_matrix Scenario.origin false)
                 = Py.Ok (Transform._create_matrix (Location.make 0 0 0)
                                                   (Rotation.make 0 0 0))).
    { unfold Transform.get_matrix. rewrite refresh_current by reflexivity.
      reflexivity. }
    rewrite Hm, Ho. cbn [Py.bind]. rewrite !create_matrix_unrotated.
    cbn [Vector3D.x Vector3D.y Vector3D.z Location.make].
    match goal with |- context [Some ?m] =>
      destruct (init_matrix_ok m) as [p [Hp [Hl _]]] end.
    { np_unfold. lra. }
    exists p. split; [exact Hp |]. rewrite Hl. np_unfold.
    unfold Location.make. f_equal; ring.
Qed.

(* ===================================================================== *)
(** ** Quaternions                                                        *)
(* ===================================================================== *)

(** C3.  For a rotation whose pitch lies strictly between -90 and 90
    degrees and outside the singularity band (|sin pitch| <= 2 * 0.4999995),
    [Quaternion.from_rotation] followed by [as_rotation] succeeds and
    returns the same pitch, and a yaw and a roll equal to the original ones
    up to a whole number of turns of 360 degrees.  In exact arithmetic the
    tolerance is zero. *)
Theorem from_rotation_as_rotation_round_trip (r : Rotation.t) :
  -90 < Rotation.pitch r < 90 ->
  Rabs (sin (Py.radians (Rotation.pitch r))) <= 2 * 0.4999995 ->
  exists q r',
    Quaternion.from_rotation r = Py.Ok q
    /\ Quaternion.as_rotation q = Py.Ok r'
    /\ Rotation.pitch r' = Rotation.pitch r
    /\ (exists k : Z, Rotation.yaw r' = Rotation.yaw r + 360 * IZR k)
    /\ (exists k : Z, Rotation.roll r' = Rotation.roll r + 360 * IZR k).
Proof.
  intros Hpitch Hband.
  pose proof PI_RGT_0 as Hpi.
  pose proof (from_rotation_components r) as Hc. cbv zeta in Hc.
  destruct Hc as (_ & Hs & Hyy & Hyx & Hry & Hrx).
  assert (Hrange : - (PI / 2) < Py.radians (Rotation.pitch r) < PI / 2).
  { unfold Py.radians. split; nra. }
  assert (Hcos : 0 < cos (Py.radians (Rotation.pitch r)))
    by (apply cos_gt_0; lra).
  eexists. eexists.
  split; [exact (from_rotation_value r) |].
  split.
  { apply as_rotation_regular.
    cbn [Quaternion.w Quaternion.x Quaternion.y Quaternion.z].
    unfold Quaternion.SINGULARITY_THRESHOLD.
    unfold Rabs in Hband.
    destruct (Rcase_abs (sin (Py.radians (Rotation.pitch r)))); lra. }
  cbn [Rotation.pitch Rotation.yaw Rotation.roll
       Quaternion.w Quaternion.x Quaternion.y Quaternion.z].
  rewrite Hs, Hyy, Hyx, Hry, Hrx.
  split; [| split].
  - rewrite asin_sin by lra.
    unfold Py.radians, Quaternion.RAD_TO_DEG. field. lra.
  - destruct (atan2_polar_mod _ (Py.radians (Rotation.yaw r)) Hcos)
      as [n Hn].
    exists n. rewrite Hn. apply degrees_of_turns.
  - destruct (atan2_polar_mod _ (Py.radians (Rotation.roll r)) Hcos)
      as [n Hn].
    exists n. rewrite Hn. apply degrees_of_turns.
Qed.

(** The round trip at pitch 30, yaw 45, roll 60. *)
Lemma from_rotation_as_rotation_round_trip_witness :
  exists q r',
    Quaternion.from_rotation (Rotation.make 30 45 60) = Py.Ok q
    /\ Quaternion.as_rotation q = Py.Ok r'
    /\ Rotation.pitch r' = 30
    /\ (exists k : Z, Rotation.yaw r' = 45 + 360 * IZR k)
    /\ (exists k : Z, Rotation.roll r' = 60 + 360 * IZR k).
Proof.
  apply (from_rotation_as_rotation_round_trip (Rotation.make 30 45 60)).
  - cbn. lra.
  - cbn. unfold Py.radians.
    replace (30 * (PI / 180)) with (PI / 6) by field.
    rewrite sin_PI6. rewrite Rabs_pos_eq; lra.
Defined.

(** C4.  [as_rotation] tests [z * x - w * y] against -0.4999995 and
    0.4999995: below, the pitch is -90 and above it is 90, with the yaw
    and the roll from the fallback [atan2] formulas; otherwise the argument
    of [arcsin] lies in [-1, 1], the pitch is [arcsin (2 * test)] in
    degrees and yaw and roll come from the general [atan2] formulas.  The
    call returns a rotation for every quaternion, and the rotation
    (0, 0, 0) for the zero sentinel. *)
Theorem as_rotation_three_way (q : Quaternion.t) :
  let s := Quaternion.z q * Quaternion.x q
           - Quaternion.w q * Quaternion.y q in
  let yaw :=
    Py.atan2 (2 * (Quaternion.w q * Quaternion.z q
                   + Quaternion.x q * Quaternion.y q))
             (1 - 2 * (Quaternion.y q ^ 2 + Quaternion.z q ^ 2))
    * Quaternion.RAD_TO_DEG in
  let fallback := 2 * Py.atan2 (Quaternion.x q) (Quaternion.w q)
                  * Quaternion.RAD_TO_DEG in
  (s < - 0.4999995 ->
     Quaternion.as_rotation q
     = Py.Ok (Rotation.make (- 90) yaw (- yaw - fallback)))
  /\ (0.4999995 < s ->
     Quaternion.as_rotation q
     = Py.Ok (Rotation.make 90 yaw (yaw - fallback)))
  /\ (- 0.4999995 <= s <= 0.4999995 ->
     -1 <= 2 * s <= 1
     /\ Quaternion.as_rotation q
        = Py.Ok (Rotation.make
                   (asin (2 * s) * Quaternion.RAD_TO_DEG)
                   yaw
                   (Py.atan2 (- 2 * (Quaternion.w q * Quaternion.x q
                                     + Quaternion.y q * Quaternion.z q))
                             (1 - 2 * (Quaternion.x q ^ 2
                                       + Quaternion.y q ^ 2))
                    * Quaternion.RAD_TO_DEG)))
  /\ (exists r, Quaternion.as_rotation q = Py.Ok r)
  /\ Quaternion.as_rotation
       (Quaternion.make 0 0 0 0 (Quaternion._create_matrix 0 0 0 0))
     = Py.Ok (Rotation.make 0 0 0).
Proof.
  intros s yaw fallback.
  assert (Hs : forall H : s < - 0.4999995, Quaternion.as_rotation q
     = Py.Ok (Rotation.make (- 90) yaw (- yaw - fallback))).
  { intro H. apply as_rotation_south.
    unfold Quaternion.SINGULARITY_THRESHOLD. fold s. lra. }
  assert (Hn : forall H : 0.4999995 < s, Quaternion.as_rotation q
     = Py.Ok (Rotation.make 90 yaw (yaw - fallback))).
  { intro H. apply as_rotation_north.
    unfold Quaternion.SINGULARITY_THRESHOLD. fold s. lra. }
  assert (Hr : - 0.4999995 <= s <= 0.4999995 -> Quaternion.as_rotation q
        = Py.Ok (Rotation.make
                   (asin (2 * s) * Quaternion.RAD_TO_DEG)
                   yaw
                   (Py.atan2 (- 2 * (Quaternion.w q * Quaternion.x q
                                     + Quaternion.y q * Quaternion.z q))
                             (1 - 2 * (Quaternion.x q ^ 2
                                       + Quaternion.y q ^ 2))
                    * Quaternion.RAD_TO_DEG))).
  { intro H. apply as_rotation_regular.
    unfold Quaternion.SINGULARITY_THRESHOLD. fold s. lra. }
  split; [exact Hs |]. split; [exact Hn |].
  split; [intro H; split; [lra | exact (Hr H)] |].
  split.
  - destruct (Rlt_dec s (- 0.4999995)) as [H | H].
    + eexists. exact (Hs H).
    + destruct (Rlt_dec 0.4999995 s) as [H' | H'].
      * eexists. exact (Hn H').
      * eexists. apply Hr. lra.
  - rewrite as_rotation_regular.
    + cbn [Quaternion.w Quaternion.x Quaternion.y Quaternion.z].
      replace (2 * (0 * 0 - 0 * 0)) with 0 by ring.
      replace (2 * (0 * 0 + 0 * 0)) with 0 by ring.
      replace (1 - 2 * (0 ^ 2 + 0 ^ 2)) with 1 by ring.
      replace (- 2 * (0 * 0 + 0 * 0)) with 0 by ring.
      rewrite asin_0, atan2_0_1, !Rmult_0_l. reflexivity.
    + cbn [Quaternion.w Quaternion.x Quaternion.y Quaternion.z].
      unfold Quaternion.SINGULARITY_THRESHOLD. lra.
Qed.

(** The south-pole branch at the unit quaternion with [w = y = 1 / sqrt 2]. *)
Lemma as_rotation_three_way_witness :
  let q := Quaternion.make (/ sqrt 2) 0 (/ sqrt 2) 0
             (Quaternion._create_matrix (/ sqrt 2) 0 (/ sqrt 2) 0) in
  exists yaw roll,
    Quaternion.as_rotation q = Py.Ok (Rotation.make (- 90) yaw roll).
Proof.
  cbv zeta. eexists. eexists.
  apply (proj1 (as_rotation_three_way
                  (Quaternion.make (/ sqrt 2) 0 (/ sqrt 2) 0
                     (Quaternion._create_matrix (/ sqrt 2) 0 (/ sqrt 2) 0)))).
  cbn [Quaternion.w Quaternion.x Quaternion.y Quaternion.z].
  rewrite <- Rinv_mult, sqrt_sqrt by lra. lra.
Defined.

(** C7.  [Quaternion(w, x, y, z)] never raises: below a norm of 1e-50 it
    stores the zero sentinel, otherwise the four inputs divided by the norm,
    which form a quaternion of norm 1. *)
Theorem Quaternion_init_normalises (w x y z : R) :
  let norm := Np.norm4 w x y z in
  (norm < 1e-50 ->
     Quaternion.__init__ w x y z
     = Py.Ok (Quaternion.make 0 0 0 0 (Quaternion._create_matrix 0 0 0 0)))
  /\ (1e-50 <= norm ->
      exists q, Quaternion.__init__ w x y z = Py.Ok q
        /\ Quaternion.w q = w / norm /\ Quaternion.x q = x / norm
        /\ Quaternion.y q = y / norm /\ Quaternion.z q = z / norm
        /\ Np.norm4 (Quaternion.w q) (Quaternion.x q)
                    (Quaternion.y q) (Quaternion.z q) = 1).
Proof.
  intro norm. split; intro H; unfold Quaternion.__init__; fold norm.
  - rewrite lt_true by assumption. reflexivity.
  - rewrite lt_false by assumption.
    assert (Hn : norm <> 0) by lra.
    rewrite !truediv_ok by assumption. cbn.
    eexists. split; [reflexivity |]. cbn. repeat split.
    unfold Np.norm4. apply sqrt_lem_1; [| lra |].
    + pose proof (norm4_sqr w x y z) as Hs. fold norm in Hs.
      assert (0 <= / norm * / norm) by nra.
      replace (w / norm * (w / norm) + x / norm * (x / norm) + y / norm * (y / norm) + z / norm * (z / norm))
        with ((w * w + x * x + y * y + z * z) * (/ norm * / norm)) by (field; assumption).
      nra.
    + pose proof (norm4_sqr w x y z) as Hs. fold norm in Hs.
      replace (w / norm * (w / norm) + x / norm * (x / norm) + y / norm * (y / norm) + z / norm * (z / norm))
        with ((w * w + x * x + y * y + z * z) / (norm * norm)) by (field; assumption).
      rewrite <- Hs. field. assumption.
Qed.

(** The constructor at the zero input and at (3, 0, 4, 0), of norm 5. *)
Lemma Quaternion_init_normalises_witness :
  Quaternion.__init__ 0 0 0 0
  = Py.Ok (Quaternion.make 0 0 0 0 (Quaternion._create_matrix 0 0 0 0))
  /\ exists q, Quaternion.__init__ 3 0 4 0 = Py.Ok q
       /\ Quaternion.w q = 3 / Np.norm4 3 0 4 0
       /\ Quaternion.x q = 0 / Np.norm4 3 0 4 0
       /\ Quaternion.y q = 4 / Np.norm4 3 0 4 0
       /\ Quaternion.z q = 0 / Np.norm4 3 0 4 0
       /\ Np.norm4 (Quaternion.w q) (Quaternion.x q)
                   (Quaternion.y q) (Quaternion.z q) = 1.
Proof.
  split.
  - apply (proj1 (Quaternion_init_normalises 0 0 0 0)).
    unfold Np.norm4. replace (0 * 0 + 0 * 0 + 0 * 0 + 0 * 0) with 0 by ring.
    rewrite sqrt_0. lra.
  - apply (proj2 (Quaternion_init_normalises 3 0 4 0)).
    unfold Np.norm4. replace (3 * 3 + 0 * 0 + 4 * 4 + 0 * 0) with (5 * 5) by ring.
    rewrite sqrt_square; lra.
Defined.

(* ===================================================================== *)
(** ** Distance ahead                                                     *)
(* ===================================================================== *)

(** The bearing of a target straight behind the origin transform is pi
    radians, at distance 50. *)
Lemma target_behind_bearing :
  Transform.get_angle_and_magnitude Scenario.origin (Location.make (-50) 0 0)
  = (PI, 50).
Proof.
  pose proof PI_RGT_0 as Hpi.
  unfold Transform.get_angle_and_magnitude, Vector2D.magnitude,
    Vector2D.__sub__, Vector3D.as_vector_2D, Scenario.origin.
  cbn [Transform.location Transform.rotation Rotation.yaw Location.make
       Vector3D.x Vector3D.y Vector2D.x Vector2D.y].
  assert (Hn : Np.norm2 (-50 - 0) (0 - 0) = 50).
  { unfold Np.norm2.
    replace ((-50 - 0) * (-50 - 0) + (0 - 0) * (0 - 0)) with (50 * 50) by ring.
    apply sqrt_square. lra. }
  rewrite Hn. rewrite gt_true by lra.
  rewrite radians_0, cos_0, sin_0.
  unfold Vector2D.get_angle. cbn [Vector2D.x Vector2D.y].
  rewrite atan2_0_1.
  assert (Ha : Py.atan2 (0 - 0) (-50 - 0) = PI).
  { unfold Py.atan2.
    destruct (Rlt_dec 0 (-50 - 0)); [lra |].
    destruct (Rlt_dec (-50 - 0) 0); [| lra].
    destruct (Rle_dec 0 (0 - 0)); [| lra].
    replace ((0 - 0) / (-50 - 0)) with 0 by (field; lra).
    rewrite atan_0. ring. }
  rewrite Ha.
  rewrite gt_false by lra. rewrite lt_false by lra.
  f_equal. ring.
Qed.

(** C5.  [is_within_distance_ahead] answers true below a planar distance of
    0.001 and false above [max_distance] (when the distance is at least
    0.001); for every distance in between it answers true whatever the
    bearing, because the angle it compares with 90.0 is in radians and never
    leaves [-pi, pi]. *)
Theorem is_within_distance_ahead_cases (t : Transform.t) (dst : Location.t)
  (max_distance : R) :
  let d := Np.norm2 (Vector3D.x dst - Vector3D.x (Transform.location t))
                    (Vector3D.y dst - Vector3D.y (Transform.location t)) in
  (d < 0.001 -> Transform.is_within_distance_ahead t dst max_distance = true)
  /\ (0.001 <= d -> max_distance < d ->
      Transform.is_within_distance_ahead t dst max_distance = false)
  /\ (0.001 <= d -> d <= max_distance ->
      Transform.is_within_distance_ahead t dst max_distance = true).
Proof.
  intro d.
  unfold Transform.is_within_distance_ahead, Transform.get_angle_and_magnitude.
  unfold Vector2D.magnitude, Vector2D.__sub__, Vector3D.as_vector_2D.
  cbn [Vector2D.x Vector2D.y]. fold d.
  repeat split.
  - intro H. rewrite lt_true by assumption. reflexivity.
  - intros H1 H2. rewrite lt_false by assumption.
    rewrite gt_true by assumption. reflexivity.
  - intros H1 H2. rewrite lt_false by assumption.
    rewrite gt_false by assumption.
    rewrite gt_true by lra.
    apply lt_true.
    match goal with |- Vector2D.get_angle ?a ?b < _ =>
      pose proof (get_angle_bound a b) end.
    pose proof PI_4. lra.
Qed.

(** A target 50 units straight behind, with [max_distance = 100], is
    reported as ahead. *)
Lemma is_within_distance_ahead_cases_witness :
  Transform.is_within_distance_ahead Scenario.origin
    (Location.make (-50) 0 0) 100 = true.
Proof.
  assert (Hn : Np.norm2 (-50 - 0) (0 - 0) = 50).
  { unfold Np.norm2.
    replace ((-50 - 0) * (-50 - 0) + (0 - 0) * (0 - 0)) with (50 * 50) by ring.
    apply sqrt_square. lra. }
  apply (proj2 (proj2 (is_within_distance_ahead_cases Scenario.origin
                         (Location.make (-50) 0 0) 100)));
    cbn [Scenario.origin Transform.location Location.make
         Vector3D.x Vector3D.y]; rewrite Hn; lra.
Defined.

(* ===================================================================== *)
(** ** Basis vectors, rotation in the plane, points and boxes             *)
(* ===================================================================== *)

(** C6.  The forward, right and up vectors of a rotation are columns 0, 1
    and 2 of the rotation block of [Transform._create_matrix], for every
    location. *)
Theorem basis_vectors_are_matrix_columns (loc : Location.t) (r : Rotation.t) :
  let m := Transform._create_matrix loc r in
  Rotation.get_forward_vector r
    = Vector3D.make (Np.m00 m) (Np.m10 m) (Np.m20 m)
  /\ Rotation.get_right_vector r
    = Vector3D.make (Np.m01 m) (Np.m11 m) (Np.m21 m)
  /\ Rotation.get_up_vector r
    = Vector3D.make (Np.m02 m) (Np.m12 m) (Np.m22 m).
Proof.
  unfold Transform._create_matrix, Rotation.get_forward_vector,
    Rotation.get_right_vector, Rotation.get_up_vector.
  cbn.
  repeat split; f_equal; ring.
Qed.

(** C9.  [rotate(0)] does not return the vector itself: it negates [y],
    because the second coordinate is computed as
    [sin(angle) * x - cos(angle) * y]. *)
Theorem rotate_zero_mirrors_y (v : Vector3D.t) :
  Vector3D.rotate v 0 = Vector3D.make (Vector3D.x v) (- Vector3D.y v) (Vector3D.z v).
Proof.
  unfold Vector3D.rotate. rewrite radians_0, cos_0, sin_0. f_equal; ring.
Qed.

(** [rotate] does not keep the planar magnitude either: the vector
    (1, 1, 0) of length [sqrt 2] is sent by a rotation of 45 degrees to the
    zero vector. *)
Lemma rotate_45_collapses_diagonal :
  Vector3D.rotate (Vector3D.make 1 1 0) 45 = Vector3D.make 0 0 0.
Proof.
  unfold Vector3D.rotate, Py.radians.
  cbn [Vector3D.x Vector3D.y Vector3D.z].
  replace (45 * (PI / 180)) with (PI / 4) by field.
  rewrite sin_PI4, cos_PI4. f_equal; ring.
Qed.

(** C8.  [contains] is the axis-aligned test of the point mapped by the
    owner's inverse transform minus the box's offset (a float32 array, so
    the difference is cast again); it raises only when the inverse matrix
    does not exist; a [Location] and an array of the same coordinates give
    the same answer; and the answer does not depend on the box's own
    rotation. *)
Theorem contains_ignores_box_rotation (astype_float32 : R -> R)
  (b : BoundingBox.t) (p : Np.array3) (t : Transform.t) :
  (match Transform.inverse_transform_point astype_float32 t p with
   | (t1, Py.Ok (a0, a1, a2)) =>
       let q0 := astype_float32 (a0 - Vector3D.x (BoundingBox.location b)) in
       let q1 := astype_float32 (a1 - Vector3D.y (BoundingBox.location b)) in
       let q2 := astype_float32 (a2 - Vector3D.z (BoundingBox.location b)) in
       BoundingBox.contains astype_float32 b (BoundingBox.OfArray p) t
       = (t1, Py.Ok (Py.le (Rabs q0) (Vector3D.x (BoundingBox.extent b))
                     && Py.le (Rabs q1) (Vector3D.y (BoundingBox.extent b))
                     && Py.le (Rabs q2) (Vector3D.z (BoundingBox.extent b))))
   | (t1, Py.Raise e) =>
       BoundingBox.contains astype_float32 b (BoundingBox.OfArray p) t
       = (t1, Py.Raise e)
   end)
  /\ BoundingBox.contains astype_float32 b
       (BoundingBox.OfLocation (let '(x, y, z) := p in Location.make x y z)) t
     = BoundingBox.contains astype_float32 b (BoundingBox.OfArray p) t
  /\ (forall r : Rotation.t,
        BoundingBox.contains astype_float32
          (BoundingBox.make (BoundingBox.location b) (BoundingBox.extent b) r)
          (BoundingBox.OfArray p) t
        = BoundingBox.contains astype_float32 b (BoundingBox.OfArray p) t).
Proof.
  split; [| split].
  - unfold BoundingBox.contains.
    destruct (Transform.inverse_transform_point astype_float32 t p)
      as [t1 [[[a0 a1] a2] | e]]; reflexivity.
  - destruct p as [[x y] z]. reflexivity.
  - intro r. reflexivity.
Qed.

(** C10.  [transform_point] and [inverse_transform_point] return, in every
    coordinate, the float32 cast of the product of the (inverse) matrix with
    the point. *)
Theorem point_transforms_cast_to_float32 (astype_float32 : R -> R)
  (t : Transform.t) (p : Np.array3) :
  (let t1 := Transform.refresh t in
   let '(a, b, c) := Np.dot_point (Transform.matrix t1) p in
   Transform.transform_point astype_float32 t p
   = (t1, Py.Ok (astype_float32 a, astype_float32 b, astype_float32 c)))
  /\ match Transform.get_matrix t true with
     | (t1, Py.Ok inv) =>
         let '(a, b, c) := Np.dot_point inv p in
         Transform.inverse_transform_point astype_float32 t p
         = (t1, Py.Ok (astype_float32 a, astype_float32 b, astype_float32 c))
     | (t1, Py.Raise e) =>
         Transform.inverse_transform_point astype_float32 t p
         = (t1, Py.Raise e)
     end.
Proof.
  split.
  - cbv zeta. unfold Transform.transform_point, Transform.get_matrix.
    cbn [Py.bind Transform.__transform map Transform.flatten].
    unfold Transform.astype.
    destruct (Np.dot_point (Transform.matrix (Transform.refresh t)) p)
      as [[a b] c].
    reflexivity.
  - unfold Transform.inverse_transform_point.
    destruct (Transform.get_matrix t true) as [t1 [inv | e]].
    + cbn [Py.bind Transform.__transform map Transform.flatten].
      unfold Transform.astype.
      destruct (Np.dot_point inv p) as [[a b] c]. reflexivity.
    + reflexivity.
Qed.

(* ===================================================================== *)
(** * Further properties of the code                                      *)
(* ===================================================================== *)

(** ** Reads, mutations and the memoised inverse *)

(** *** Reads of the matrix *)
Lemma refresh_snapshot (t : Transform.t) :
  Transform._location (Transform.refresh t)
  = Transform.location (Transform.refresh t)
  /\ Transform._rotation (Transform.refresh t)
     = Transform.rotation (Transform.refresh t)
  /\ Transform.location (Transform.refresh t) = Transform.location t
  /\ Transform.rotation (Transform.refresh t) = Transform.rotation t.
Proof.
  unfold Transform.refresh.
  destruct (Vector3D.__ne__ (Transform._location t) (Transform.location t))
    eqn:El; cbn [orb].
  - cbn. rewrite Vector3D_copy_id, Rotation_copy_id. repeat split.
  - destruct (Rotation.__ne__ (Transform._rotation t) (Transform.rotation t))
      eqn:Er.
    + cbn. rewrite Vector3D_copy_id, Rotation_copy_id. repeat split.
    + apply Vector3D_ne_false in El. apply Rotation_ne_false in Er.
      repeat split; assumption.
Qed.

Lemma refresh_idempotent (t : Transform.t) :
  Transform.refresh (Transform.refresh t) = Transform.refresh t.
Proof.
  destruct (refresh_snapshot t) as (Hl & Hr & _).
  apply refresh_current; assumption.
Qed.

(** X1.  Reading the matrix twice in a row is the same as reading it once:
    the second [get_matrix(inverse)] returns the same value (or raises the
    same error) and leaves the object as the first call left it; after any
    read, [get_matrix()] returns the stored matrix without rebuilding. *)
Theorem get_matrix_repeated_read (t : Transform.t) (inverse : bool) :
  Transform.get_matrix (fst (Transform.get_matrix t inverse)) inverse
  = Transform.get_matrix t inverse
  /\ Transform.get_matrix (fst (Transform.get_matrix t inverse)) false
     = (fst (Transform.get_matrix t inverse),
        Py.Ok (Transform.matrix (Transform.refresh t))).
Proof.
  unfold Transform.get_matrix.
  pose proof (refresh_idempotent t) as Hi.
  destruct (refresh_snapshot t) as (Hl & Hr & _).
  set (t1 := Transform.refresh t) in *.
  destruct inverse.
  - destruct (Transform._inv_matrix t1) as [inv |] eqn:Ei.
    + cbn [fst]. rewrite Hi, Ei. split; reflexivity.
    + destruct (Np.linalg_inv (Transform.matrix t1)) as [inv | e] eqn:El.
      * cbn [fst].
        rewrite refresh_current by (cbn; assumption).
        cbn. split; reflexivity.
      * cbn [fst]. rewrite Hi, Ei, El. split; reflexivity.
  - cbn [fst]. rewrite Hi. split; reflexivity.
Qed.

(** The invariant of a transform built from a pose: the stored matrix is
    the one of the snapshot, and a memoised inverse is the inverse of the
    stored matrix. *)
Lemma reachable_invariant (t : Transform.t) :
  Lifecycle.reachable t ->
  Transform.matrix t
  = Transform._create_matrix (Transform._location t) (Transform._rotation t)
  /\ forall inv, Transform._inv_matrix t = Some inv ->
                 Np.linalg_inv (Transform.matrix t) = Py.Ok inv.
Proof.
  induction 1 as [l r t Hb | t l Ht IH | t r Ht IH | t b Ht IH].
  - unfold Transform.__init__ in Hb. injection Hb as <-. cbn.
    rewrite Vector3D_copy_id, Rotation_copy_id.
    split; [reflexivity | discriminate].
  - exact IH.
  - exact IH.
  - destruct IH as [Hm Hi].
    assert (Hr : Transform.matrix (Transform.refresh t)
                 = Transform._create_matrix
                     (Transform._location (Transform.refresh t))
                     (Transform._rotation (Transform.refresh t))
                 /\ forall inv,
                      Transform._inv_matrix (Transform.refresh t) = Some inv ->
                      Np.linalg_inv (Transform.matrix (Transform.refresh t))
                      = Py.Ok inv).
    { unfold Transform.refresh.
      destruct (Vector3D.__ne__ _ _ || Rotation.__ne__ _ _).
      - cbn. rewrite Vector3D_copy_id, Rotation_copy_id.
        split; [reflexivity | discriminate].
      - split; assumption. }
    destruct Hr as [Hm' Hi'].
    unfold Transform.get_matrix.
    set (t1 := Transform.refresh t) in *.
    destruct b; [| cbn [fst]; split; assumption].
    destruct (Transform._inv_matrix t1) as [inv |] eqn:Ei.
    + cbn [fst]. split; [assumption |]. rewrite Ei. exact Hi'.
    + destruct (Np.linalg_inv (Transform.matrix t1)) as [inv | e] eqn:El.
      * cbn. split; [assumption |]. intros inv' H. injection H as <-.
        assumption.
      * cbn [fst]. split; [assumption |]. rewrite Ei. discriminate.
Qed.

Lemma reachable_refresh_matrix (t : Transform.t) :
  Lifecycle.reachable t ->
  Transform.matrix (Transform.refresh t)
  = Transform._create_matrix (Transform.location t) (Transform.rotation t).
Proof.
  intro Ht. destruct (reachable_invariant t Ht) as [Hm _].
  unfold Transform.refresh.
  destruct (Vector3D.__ne__ (Transform._location t) (Transform.location t))
    eqn:El; cbn [orb]; [reflexivity |].
  destruct (Rotation.__ne__ (Transform._rotation t) (Transform.rotation t))
    eqn:Er; [reflexivity |].
  apply Vector3D_ne_false in El. apply Rotation_ne_false in Er.
  rewrite Hm, El, Er. reflexivity.
Qed.

Lemma reachable_reads_current_pose (t : Transform.t) :
  Lifecycle.reachable t ->
  snd (Transform.get_matrix t false)
  = Py.Ok (Transform._create_matrix (Transform.location t)
                                    (Transform.rotation t)).
Proof.
  intro Ht. unfold Transform.get_matrix. cbn [snd].
  rewrite reachable_refresh_matrix by assumption. reflexivity.
Qed.

(** X2.  For a transform built from a location and a rotation, and then
    changed only through assignments to [location] and [rotation] and
    through reads, [get_matrix()] always returns the matrix of the current
    location and rotation, and the read changes neither of them. *)
Theorem reachable_get_matrix_is_current_pose (t : Transform.t) :
  Lifecycle.reachable t ->
  snd (Transform.get_matrix t false)
  = Py.Ok (Transform._create_matrix (Transform.location t)
                                    (Transform.rotation t))
  /\ Transform.location (fst (Transform.get_matrix t false))
     = Transform.location t
  /\ Transform.rotation (fst (Transform.get_matrix t false))
     = Transform.rotation t.
Proof.
  intro Ht. split; [apply reachable_reads_current_pose, Ht |].
  unfold Transform.get_matrix. cbn [fst].
  destruct (refresh_snapshot t) as (_ & _ & Hl & Hr). split; assumption.
Qed.

Lemma reachable_get_matrix_is_current_pose_witness :
  snd (Transform.get_matrix
         (Transform.set_rotation Scenario.moved (Rotation.make 0 90 0)) false)
  = Py.Ok (Transform._create_matrix (Location.make 3 0 0)
                                    (Rotation.make 0 90 0)).
Proof.
  apply (proj1 (reachable_get_matrix_is_current_pose
                  (Transform.set_rotation Scenario.moved
                     (Rotation.make 0 90 0))
                  (Lifecycle.rotation_assigned _ _
                     (Lifecycle.location_assigned _ _
                        (Lifecycle.built (Some (Location.make 0 0 0))
                           (Some (Rotation.make 0 0 0)) Scenario.origin
                           eq_refl))))).
Defined.

Lemma reachable_inverse (t : Transform.t) :
  Lifecycle.reachable t ->
  exists inv,
    snd (Transform.get_matrix t true) = Py.Ok inv
    /\ Np.linalg_inv (Transform._create_matrix (Transform.location t)
                                               (Transform.rotation t))
       = Py.Ok inv.
Proof.
  intro Ht.
  pose proof (reachable_refresh_matrix t Ht) as Hm.
  assert (Hr : Lifecycle.reachable (Transform.refresh t)).
  { apply (Lifecycle.matrix_read t false) in Ht. exact Ht. }
  destruct (reachable_invariant _ Hr) as [_ Hi].
  destruct (linalg_inv_regular
              (Transform._create_matrix (Transform.location t)
                                        (Transform.rotation t)))
    as [inv [Hinv _]].
  { rewrite det_create_matrix. lra. }
  exists inv. split; [| exact Hinv].
  unfold Transform.get_matrix.
  destruct (Transform._inv_matrix (Transform.refresh t)) as [inv' |] eqn:Ei.
  - specialize (Hi inv' eq_refl). rewrite Hm, Hinv in Hi.
    injection Hi as ->. reflexivity.
  - rewrite Hm, Hinv. reflexivity.
Qed.

Lemma dot_point_dot (a b : Np.matrix4) (p : Np.array3) :
  Np.m30 b = 0 -> Np.m31 b = 0 -> Np.m32 b = 0 -> Np.m33 b = 1 ->
  Np.dot_point a (Np.dot_point b p) = Np.dot_point (Np.dot a b) p.
Proof.
  intros H0 H1 H2 H3. destruct a, b, p as [[x y] z].
  cbn in H0, H1, H2, H3. subst. np_unfold.
  f_equal; [f_equal |]; ring.
Qed.

Lemma dot_point_identity (p : Np.array3) : Np.dot_point Np.identity4 p = p.
Proof. destruct p as [[x y] z]. np_unfold. f_equal; [f_equal |]; ring. Qed.

(** The inverse of an affine matrix (last row 0 0 0 1) is affine. *)
Lemma affine_inverse_bottom_row (a inv : Np.matrix4) :
  Np.m30 a = 0 -> Np.m31 a = 0 -> Np.m32 a = 0 -> Np.m33 a = 1 ->
  Np.linalg_inv a = Py.Ok inv ->
  Np.m30 inv = 0 /\ Np.m31 inv = 0 /\ Np.m32 inv = 0 /\ Np.m33 inv = 1.
Proof.
  intros H0 H1 H2 H3 Hinv. unfold Np.linalg_inv in Hinv.
  destruct (Req_dec_T (Np.det a) 0) as [E | E]; [discriminate |].
  injection Hinv as <-.
  destruct a. cbn in H0, H1, H2, H3. subst.
  revert E. np_unfold. intro E.
  repeat split; field; intro E'; apply E; lra.
Qed.

(** X3.  For such a transform [get_matrix(inverse=True)] and
    [get_inverse_matrix()] never raise: they return a two-sided inverse of
    the matrix [get_matrix()] returns, and the two matrices undo each other
    on every point. *)
Theorem reachable_inverse_undoes_matrix (t : Transform.t) :
  Lifecycle.reachable t ->
  exists m inv,
    snd (Transform.get_matrix t false) = Py.Ok m
    /\ snd (Transform.get_matrix t true) = Py.Ok inv
    /\ snd (Transform.get_inverse_matrix t) = Py.Ok inv
    /\ Np.dot inv m = Np.identity4
    /\ Np.dot m inv = Np.identity4
    /\ forall p : Np.array3,
         Np.dot_point inv (Np.dot_point m p) = p
         /\ Np.dot_point m (Np.dot_point inv p) = p.
Proof.
  intro Ht.
  destruct (reachable_inverse t Ht) as [inv [Hg Hinv]].
  set (m := Transform._create_matrix (Transform.location t)
                                     (Transform.rotation t)) in *.
  destruct (linalg_inv_regular m) as [inv' [Hinv' [Hl Hr]]].
  { unfold m. rewrite det_create_matrix. lra. }
  rewrite Hinv in Hinv'. injection Hinv' as <-.
  exists m, inv. split; [apply reachable_reads_current_pose, Ht |].
  split; [exact Hg |]. split; [exact Hg |].
  split; [exact Hl |]. split; [exact Hr |].
  assert (Hrow : Np.m30 inv = 0 /\ Np.m31 inv = 0 /\ Np.m32 inv = 0
                 /\ Np.m33 inv = 1).
  { apply (affine_inverse_bottom_row m inv); try reflexivity. exact Hinv. }
  destruct Hrow as (H0 & H1 & H2 & H3).
  intro p. split.
  - rewrite dot_point_dot; [rewrite Hl; apply dot_point_identity | | | |];
      reflexivity.
  - rewrite dot_point_dot by assumption. rewrite Hr.
    apply dot_point_identity.
Qed.

Lemma linalg_inv_translation (x y z : R) :
  Np.linalg_inv (Np.Matrix4 1 0 0 x 0 1 0 y 0 0 1 z 0 0 0 1)
  = Py.Ok (Np.Matrix4 1 0 0 (- x) 0 1 0 (- y) 0 0 1 (- z) 0 0 0 1).
Proof.
  unfold Np.linalg_inv.
  assert (Hd : Np.det (Np.Matrix4 1 0 0 x 0 1 0 y 0 0 1 z 0 0 0 1) = 1)
    by (np_unfold; ring).
  rewrite Hd.
  destruct (Req_dec_T 1 0) as [E | _]; [lra |].
  f_equal. apply matrix4_ext; np_unfold; field.
Qed.



(** *** Recovering a pose from its matrix *)
Lemma radians_degrees (a : R) : Py.degrees (Py.radians a) = a.
Proof.
  unfold Py.degrees, Py.radians. pose proof PI_RGT_0. field. lra.
Qed.

Lemma acos_cos_abs (a : R) : - PI <= a <= PI -> acos (cos a) = Rabs a.
Proof.
  intro H. unfold Rabs. destruct (Rcase_abs a).
  - rewrite <- cos_neg. apply acos_cos. lra.
  - apply acos_cos. lra.
Qed.

(** X5.  Building a transform from the matrix of a pose recovers the
    location, the pitch (strictly between -90 and 90) and the roll (between
    -90 and 90) but only the magnitude of the yaw (between -180 and 180):
    the recovered yaw is never negative. *)
Theorem init_from_created_matrix (l : Location.t) (r : Rotation.t) :
  -90 < Rotation.pitch r < 90 ->
  -180 <= Rotation.yaw r <= 180 ->
  -90 <= Rotation.roll r <= 90 ->
  exists t,
    Transform.__init__ None None (Some (Transform._create_matrix l r))
    = Py.Ok t
    /\ Transform.location t = l
    /\ Transform.rotation t
       = Rotation.make (Rotation.pitch r) (Rabs (Rotation.yaw r))
                       (Rotation.roll r)
    /\ Transform.matrix t = Transform._create_matrix l r.
Proof.
  intros Hp Hy Hr.
  pose proof PI_RGT_0 as Hpi.
  set (P := Py.radians (Rotation.pitch r)).
  set (Y := Py.radians (Rotation.yaw r)).
  set (Ro := Py.radians (Rotation.roll r)).
  assert (HP : - (PI / 2) < P < PI / 2) by (unfold P, Py.radians; split; nra).
  assert (HY : - PI <= Y <= PI) by (unfold Y, Py.radians; split; nra).
  assert (HR : - (PI / 2) <= Ro <= PI / 2)
    by (unfold Ro, Py.radians; split; nra).
  assert (HcP : 0 < cos P) by (apply cos_gt_0; lra).
  assert (HsP : -1 < sin P < 1).
  { assert (H1 : sin P < sin (PI / 2)) by (apply sin_increasing_1; lra).
    assert (H2 : sin (- (PI / 2)) < sin P) by (apply sin_increasing_1; lra).
    rewrite sin_neg in H2. rewrite sin_PI2 in H1, H2. lra. }
  unfold Transform.__init__, Transform._create_matrix.
  cbn [Np.m00 Np.m10 Np.m20 Np.m21 Np.m03 Np.m13 Np.m23
       Vector3D.x Vector3D.y Vector3D.z].
  fold P Y Ro.
  rewrite (clip_inside (sin P)) by lra.
  rewrite asin_sin by lra.
  rewrite !truediv_ok by lra.
  cbn [Py.bind].
  replace (cos P * cos Y / cos P) with (cos Y) by (field; lra).
  replace (- cos P * sin Ro / (-1 * cos P)) with (sin Ro) by (field; lra).
  rewrite (clip_inside (cos Y)) by (pose proof (COS_bound Y); lra).
  rewrite (clip_inside (sin Ro)) by (pose proof (SIN_bound Ro); lra).
  rewrite acos_cos_abs by assumption.
  rewrite asin_sin by assumption.
  eexists. split; [reflexivity |].
  cbn [Transform.location Transform.rotation Transform.matrix].
  split; [destruct l; reflexivity |]. split; [| reflexivity].
  unfold P, Ro. rewrite !radians_degrees.
  f_equal. unfold Y, Py.radians, Py.degrees.
  rewrite Rabs_mult. rewrite (Rabs_pos_eq (PI / 180)) by nra.
  field. lra.
Qed.

Lemma init_from_created_matrix_witness :
  exists t,
    Transform.__init__ None None
      (Some (Transform._create_matrix (Location.make 1 2 3)
                                      (Rotation.make 10 (-90) 20)))
    = Py.Ok t
    /\ Transform.location t = Location.make 1 2 3
    /\ Transform.rotation t = Rotation.make 10 (Rabs (-90)) 20
    /\ Transform.matrix t
       = Transform._create_matrix (Location.make 1 2 3)
                                  (Rotation.make 10 (-90) 20).
Proof.
  apply (init_from_created_matrix (Location.make 1 2 3)
                                  (Rotation.make 10 (-90) 20));
    cbn; lra.
Defined.

Lemma reachable_inverse_undoes_matrix_witness :
  exists m inv,
    snd (Transform.get_matrix Scenario.moved false) = Py.Ok m
    /\ snd (Transform.get_matrix Scenario.moved true) = Py.Ok inv
    /\ snd (Transform.get_inverse_matrix Scenario.moved) = Py.Ok inv
    /\ Np.dot inv m = Np.identity4
    /\ Np.dot m inv = Np.identity4
    /\ forall p : Np.array3,
         Np.dot_point inv (Np.dot_point m p) = p
         /\ Np.dot_point m (Np.dot_point inv p) = p.
Proof.
  apply (reachable_inverse_undoes_matrix Scenario.moved).
  apply Lifecycle.location_assigned.
  apply (Lifecycle.built (Some (Location.make 0 0 0))
                         (Some (Rotation.make 0 0 0))).
  reflexivity.
Defined.

Lemma degrees_0 : Py.degrees 0 = 0.
Proof. unfold Py.degrees. ring. Qed.

(** X25.  The inverse of a transform without rotation is the transform
    at the opposite location, again without rotation, and its matrix times
    the original matrix is the identity. *)
Theorem inverse_of_translation (t : Transform.t) :
  Lifecycle.reachable t ->
  Transform.rotation t = Rotation.make 0 0 0 ->
  exists u,
    snd (Transform.inverse_transform t) = Py.Ok u
    /\ Transform.location u
       = Location.make (- Vector3D.x (Transform.location t))
                       (- Vector3D.y (Transform.location t))
                       (- Vector3D.z (Transform.location t))
    /\ Transform.rotation u = Rotation.make 0 0 0
    /\ Np.dot (Transform.matrix u)
              (Transform._create_matrix (Transform.location t)
                                        (Transform.rotation t))
       = Np.identity4.
Proof.
  intros Ht Hrot.
  destruct (reachable_inverse t Ht) as [inv [Hg Hinv]].
  rewrite Hrot, create_matrix_unrotated in Hinv.
  rewrite linalg_inv_translation in Hinv. injection Hinv as <-.
  unfold Transform.inverse_transform.
  destruct (Transform.get_matrix t true) as [t1 m]. cbn [snd] in *.
  rewrite Hg. cbn [Py.bind].
  unfold Transform.__init__.
  cbn [Np.m00 Np.m10 Np.m20 Np.m21 Np.m03 Np.m13 Np.m23
       Vector3D.x Vector3D.y Vector3D.z].
  rewrite (clip_inside 0) by lra. rewrite asin_0, cos_0.
  rewrite !truediv_ok by lra. cbn [Py.bind].
  replace (1 / 1) with 1 by field.
  replace (0 / (-1 * 1)) with 0 by field.
  rewrite (clip_inside 1) by lra. rewrite (clip_inside 0) by lra.
  rewrite acos_1, asin_0, degrees_0.
  eexists. split; [reflexivity |].
  cbn [Transform.location Transform.rotation Transform.matrix].
  split; [reflexivity |]. split; [reflexivity |].
  rewrite Hrot, create_matrix_unrotated.
  apply matrix4_ext; np_unfold; ring.
Qed.

Lemma inverse_of_translation_witness :
  exists u,
    snd (Transform.inverse_transform Scenario.moved) = Py.Ok u
    /\ Transform.location u = Location.make (- 3) (- 0) (- 0)
    /\ Transform.rotation u = Rotation.make 0 0 0
    /\ Np.dot (Transform.matrix u)
              (Transform._create_matrix (Location.make 3 0 0)
                                        (Rotation.make 0 0 0))
       = Np.identity4.
Proof.
  apply (inverse_of_translation Scenario.moved).
  - apply Lifecycle.location_assigned.
    apply (Lifecycle.built (Some (Location.make 0 0 0))
                           (Some (Rotation.make 0 0 0))).
    reflexivity.
  - reflexivity.
Defined.

(** ** Quaternions and their matrices *)

(** *** Matrices of quaternions *)
Lemma matrix3_ext (a b : Np.matrix3) :
  Np.a00 a = Np.a00 b -> Np.a01 a = Np.a01 b -> Np.a02 a = Np.a02 b ->
  Np.a10 a = Np.a10 b -> Np.a11 a = Np.a11 b -> Np.a12 a = Np.a12 b ->
  Np.a20 a = Np.a20 b -> Np.a21 a = Np.a21 b -> Np.a22 a = Np.a22 b ->
  a = b.
Proof.
  destruct a, b. cbn. intros. subst. reflexivity.
Qed.

Ltac np3_unfold :=
  cbv beta iota zeta delta
    [Np.dot3 Np.transpose3 Np.identity3 Np.block3 Np.dot3_vec
     Quaternion._create_matrix Quaternion.matrix
     Quaternion.w Quaternion.x Quaternion.y Quaternion.z
     Np.a00 Np.a01 Np.a02 Np.a10 Np.a11 Np.a12 Np.a20 Np.a21 Np.a22
     Np.m00 Np.m01 Np.m02 Np.m03 Np.m10 Np.m11 Np.m12 Np.m13
     Np.m20 Np.m21 Np.m22 Np.m23 Np.m30 Np.m31 Np.m32 Np.m33].

(** Ideal membership with the Pythagorean relations as rewriting rules. *)
Ltac pythagoras_nsatz :=
  nsatz with radicalmax:=1%N strategy:=1%Z
             parameters:=(@nil R) variables:=(@nil R).

Lemma quaternion_matrix_of_half_angles (cr sr cp sp cy sy : R) :
  sr * sr + cr * cr = 1 -> sp * sp + cp * cp = 1 -> sy * sy + cy * cy = 1 ->
  let w := cr * cp * cy + sr * sp * sy in
  let x := cr * sp * sy - sr * cp * cy in
  let y := - cr * sp * cy - sr * cp * sy in
  let z := cr * cp * sy - sr * sp * cy in
  let cR := cr * cr - sr * sr in let sR := 2 * sr * cr in
  let cP := cp * cp - sp * sp in let sP := 2 * sp * cp in
  let cY := cy * cy - sy * sy in let sY := 2 * sy * cy in
  Quaternion._create_matrix w x y z
  = Np.Matrix3 (cP * cY) (cY * sP * sR - sY * cR) (- cY * sP * cR - sY * sR)
               (sY * cP) (sY * sP * sR + cY * cR) (- sY * sP * cR + cY * sR)
               sP (- cP * sR) (cP * cR).
Proof.
  intros Hr Hp Hy w x y z cR sR cP sP cY sY.
  subst w x y z cR sR cP sP cY sY.
  assert (Hr' : cr * cr = 1 - sr * sr) by lra.
  assert (Hp' : cp * cp = 1 - sp * sp) by lra.
  assert (Hy' : cy * cy = 1 - sy * sy) by lra.
  clear Hr Hp Hy.
  apply matrix3_ext; np3_unfold; pythagoras_nsatz.
Qed.

(** X6.  The matrix stored in [Quaternion.from_rotation(r)] is the 3x3
    rotation block of [Transform._create_matrix(l, r)], as the docstring of
    [Quaternion._create_matrix] says. *)
Theorem from_rotation_matrix_is_transform_block (r : Rotation.t)
  (l : Location.t) :
  exists q,
    Quaternion.from_rotation r = Py.Ok q
    /\ Quaternion.matrix q = Np.block3 (Transform._create_matrix l r).
Proof.
  eexists. split; [exact (from_rotation_value r) |].
  cbn [Quaternion.matrix].
  set (R2 := Py.radians (Rotation.roll r) / 2).
  set (P2 := Py.radians (Rotation.pitch r) / 2).
  set (Y2 := Py.radians (Rotation.yaw r) / 2).
  pose proof (sin2_cos2 R2) as Hr.
  pose proof (sin2_cos2 P2) as Hp.
  pose proof (sin2_cos2 Y2) as Hy.
  unfold Rsqr in Hr, Hp, Hy.
  pose proof (quaternion_matrix_of_half_angles _ _ _ _ _ _ Hr Hp Hy) as H.
  cbv zeta in H. rewrite H.
  unfold Transform._create_matrix, Np.block3.
  cbn [Np.m00 Np.m01 Np.m02 Np.m10 Np.m11 Np.m12 Np.m20 Np.m21 Np.m22].
  replace (Py.radians (Rotation.pitch r)) with (2 * P2)
    by (unfold P2; field).
  replace (Py.radians (Rotation.yaw r)) with (2 * Y2) by (unfold Y2; field).
  replace (Py.radians (Rotation.roll r)) with (2 * R2) by (unfold R2; field).
  rewrite !sin_2a, !cos_2a.
  apply matrix3_ext; cbn [Np.a00 Np.a01 Np.a02 Np.a10 Np.a11 Np.a12
                          Np.a20 Np.a21 Np.a22]; ring.
Qed.

Lemma create_matrix_orthogonal (w x y z : R) :
  w * w + x * x + y * y + z * z = 1 ->
  Np.dot3 (Quaternion._create_matrix w x y z)
          (Np.transpose3 (Quaternion._create_matrix w x y z))
  = Np.identity3.
Proof.
  intro H.
  apply matrix3_ext; np3_unfold; rewrite <- H;
    first [ ring
          | transitivity ((w * w + x * x + y * y + z * z)
                          * (w * w + x * x + y * y + z * z));
            [ring | rewrite H; ring] ].
Qed.

Lemma create_matrix_zero :
  Quaternion._create_matrix 0 0 0 0 = Np.identity3.
Proof. apply matrix3_ext; np3_unfold; ring. Qed.

Lemma dot3_identity_transpose :
  Np.dot3 Np.identity3 (Np.transpose3 Np.identity3) = Np.identity3.
Proof. apply matrix3_ext; np3_unfold; ring. Qed.

(** What the constructor returns: the sentinel, or the normalised input of
    norm 1, in both cases with the matrix of the stored components. *)
Lemma Quaternion_init_cases (w x y z : R) :
  exists q,
    Quaternion.__init__ w x y z = Py.Ok q
    /\ Quaternion.matrix q
       = Quaternion._create_matrix (Quaternion.w q) (Quaternion.x q)
                                   (Quaternion.y q) (Quaternion.z q)
    /\ ((Np.norm4 w x y z < 1e-50
         /\ Quaternion.w q = 0 /\ Quaternion.x q = 0
         /\ Quaternion.y q = 0 /\ Quaternion.z q = 0)
        \/ (1e-50 <= Np.norm4 w x y z
            /\ Quaternion.w q = w / Np.norm4 w x y z
            /\ Quaternion.x q = x / Np.norm4 w x y z
            /\ Quaternion.y q = y / Np.norm4 w x y z
            /\ Quaternion.z q = z / Np.norm4 w x y z
            /\ Quaternion.w q * Quaternion.w q + Quaternion.x q * Quaternion.x q
               + Quaternion.y q * Quaternion.y q
               + Quaternion.z q * Quaternion.z q = 1)).
Proof.
  unfold Quaternion.__init__.
  set (n := Np.norm4 w x y z).
  destruct (Rlt_dec n 1e-50) as [H | H].
  - rewrite lt_true by assumption. eexists. split; [reflexivity |].
    split; [reflexivity |]. left.
    cbn [Quaternion.w Quaternion.x Quaternion.y Quaternion.z].
    repeat split. assumption.
  - rewrite lt_false by lra.
    assert (Hn : n <> 0) by lra.
    rewrite !truediv_ok by assumption. cbn [Py.bind].
    eexists. split; [reflexivity |]. split; [reflexivity |]. right.
    cbn [Quaternion.w Quaternion.x Quaternion.y Quaternion.z].
    repeat split; try lra.
    pose proof (norm4_sqr w x y z) as Hs. fold n in Hs.
    replace (w / n * (w / n) + x / n * (x / n) + y / n * (y / n)
             + z / n * (z / n))
      with ((w * w + x * x + y * y + z * z) / (n * n)) by (field; assumption).
    rewrite <- Hs. field. assumption.
Qed.

(** X7.  The matrix stored by the constructor of a quaternion is
    orthogonal (its product with its transpose is the identity) for every
    input; for the zero sentinel it is the identity matrix. *)
Theorem quaternion_matrix_is_orthogonal (w x y z : R) :
  exists q,
    Quaternion.__init__ w x y z = Py.Ok q
    /\ Np.dot3 (Quaternion.matrix q) (Np.transpose3 (Quaternion.matrix q))
       = Np.identity3
    /\ (Np.norm4 w x y z < 1e-50 -> Quaternion.matrix q = Np.identity3).
Proof.
  destruct (Quaternion_init_cases w x y z) as [q [Hq [Hm Hc]]].
  exists q. split; [exact Hq |]. rewrite Hm.
  destruct Hc as [(Hn & -> & -> & -> & ->) | (Hn & _ & _ & _ & _ & Hu)].
  - rewrite create_matrix_zero. split; [apply dot3_identity_transpose |].
    reflexivity.
  - split; [apply create_matrix_orthogonal; exact Hu | intro; lra].
Qed.

(** *** Products of quaternions *)
Lemma Quaternion_init_unit (w x y z : R) :
  w * w + x * x + y * y + z * z = 1 ->
  Quaternion.__init__ w x y z
  = Py.Ok (Quaternion.make w x y z (Quaternion._create_matrix w x y z)).
Proof.
  intro H. unfold Quaternion.__init__.
  assert (Hn : Np.norm4 w x y z = 1).
  { unfold Np.norm4. rewrite H. apply sqrt_1. }
  rewrite Hn. rewrite lt_false by lra. rewrite !truediv_ok by lra.
  cbn [Py.bind].
  replace (w / 1) with w by field. replace (x / 1) with x by field.
  replace (y / 1) with y by field. replace (z / 1) with z by field.
  reflexivity.
Qed.

Lemma Quaternion_init_zero :
  Quaternion.__init__ 0 0 0 0
  = Py.Ok (Quaternion.make 0 0 0 0 (Quaternion._create_matrix 0 0 0 0)).
Proof.
  unfold Quaternion.__init__.
  assert (Hn : Np.norm4 0 0 0 0 = 0).
  { unfold Np.norm4. replace (0 * 0 + 0 * 0 + 0 * 0 + 0 * 0) with 0 by ring.
    apply sqrt_0. }
  rewrite Hn. rewrite lt_true by lra. reflexivity.
Qed.

Lemma hamilton_matrix (w1 x1 y1 z1 w2 x2 y2 z2 : R) :
  w1 * w1 + x1 * x1 + y1 * y1 + z1 * z1 = 1 ->
  w2 * w2 + x2 * x2 + y2 * y2 + z2 * z2 = 1 ->
  Quaternion._create_matrix
    (w1 * w2 - x1 * x2 - y1 * y2 - z1 * z2)
    (w1 * x2 + x1 * w2 + y1 * z2 - z1 * y2)
    (w1 * y2 - x1 * z2 + y1 * w2 + z1 * x2)
    (w1 * z2 + x1 * y2 - y1 * x2 + z1 * w2)
  = Np.dot3 (Quaternion._create_matrix w1 x1 y1 z1)
            (Quaternion._create_matrix w2 x2 y2 z2).
Proof.
  intros H1 H2.
  assert (H1' : w1 * w1 = 1 - x1 * x1 - y1 * y1 - z1 * z1) by lra.
  assert (H2' : w2 * w2 = 1 - x2 * x2 - y2 * y2 - z2 * z2) by lra.
  clear H1 H2.
  apply matrix3_ext; np3_unfold; pythagoras_nsatz.
Qed.

(** X8.  The product of two quaternions of norm 1 does not raise: it has
    the components of the Hamilton product [self * other], norm 1 again, and
    its matrix is the product of the two matrices, [self]'s on the left. *)
Theorem Quaternion_mul_unit (a b : Quaternion.t) :
  Quaternion.w a * Quaternion.w a + Quaternion.x a * Quaternion.x a
  + Quaternion.y a * Quaternion.y a + Quaternion.z a * Quaternion.z a = 1 ->
  Quaternion.w b * Quaternion.w b + Quaternion.x b * Quaternion.x b
  + Quaternion.y b * Quaternion.y b + Quaternion.z b * Quaternion.z b = 1 ->
  Quaternion.matrix a
  = Quaternion._create_matrix (Quaternion.w a) (Quaternion.x a)
                              (Quaternion.y a) (Quaternion.z a) ->
  Quaternion.matrix b
  = Quaternion._create_matrix (Quaternion.w b) (Quaternion.x b)
                              (Quaternion.y b) (Quaternion.z b) ->
  exists c,
    Quaternion.__mul__ a b = Py.Ok c
    /\ Quaternion.w c
       = Quaternion.w a * Quaternion.w b - Quaternion.x a * Quaternion.x b
         - Quaternion.y a * Quaternion.y b - Quaternion.z a * Quaternion.z b
    /\ Quaternion.x c
       = Quaternion.w a * Quaternion.x b + Quaternion.x a * Quaternion.w b
         + Quaternion.y a * Quaternion.z b - Quaternion.z a * Quaternion.y b
    /\ Quaternion.y c
       = Quaternion.w a * Quaternion.y b - Quaternion.x a * Quaternion.z b
         + Quaternion.y a * Quaternion.w b + Quaternion.z a * Quaternion.x b
    /\ Quaternion.z c
       = Quaternion.w a * Quaternion.z b + Quaternion.x a * Quaternion.y b
         - Quaternion.y a * Quaternion.x b + Quaternion.z a * Quaternion.w b
    /\ Quaternion.w c * Quaternion.w c + Quaternion.x c * Quaternion.x c
       + Quaternion.y c * Quaternion.y c + Quaternion.z c * Quaternion.z c = 1
    /\ Quaternion.matrix c
       = Np.dot3 (Quaternion.matrix a) (Quaternion.matrix b).
Proof.
  destruct a as [w1 x1 y1 z1 m1], b as [w2 x2 y2 z2 m2].
  cbn [Quaternion.w Quaternion.x Quaternion.y Quaternion.z Quaternion.matrix].
  intros H1 H2 -> ->.
  unfold Quaternion.__mul__.
  cbn [Quaternion.w Quaternion.x Quaternion.y Quaternion.z].
  set (w := w1 * w2 - x1 * x2 - y1 * y2 - z1 * z2).
  set (x := w1 * x2 + x1 * w2 + y1 * z2 - z1 * y2).
  set (y := w1 * y2 - x1 * z2 + y1 * w2 + z1 * x2).
  set (z := w1 * z2 + x1 * y2 - y1 * x2 + z1 * w2).
  assert (Hu : w * w + x * x + y * y + z * z = 1).
  { replace (w * w + x * x + y * y + z * z)
      with ((w1 * w1 + x1 * x1 + y1 * y1 + z1 * z1)
            * (w2 * w2 + x2 * x2 + y2 * y2 + z2 * z2))
      by (unfold w, x, y, z; ring).
    rewrite H1, H2. ring. }
  rewrite Quaternion_init_unit by exact Hu.
  eexists. split; [reflexivity |].
  cbn [Quaternion.w Quaternion.x Quaternion.y Quaternion.z Quaternion.matrix].
  repeat (split; [reflexivity || exact Hu |]).
  apply hamilton_matrix; assumption.
Qed.

Lemma Quaternion_mul_unit_witness :
  exists c,
    Quaternion.__mul__
      (Quaternion.make 0 1 0 0 (Quaternion._create_matrix 0 1 0 0))
      (Quaternion.make 0 0 1 0 (Quaternion._create_matrix 0 0 1 0))
    = Py.Ok c
    /\ Quaternion.w c = 0 * 0 - 1 * 0 - 0 * 1 - 0 * 0
    /\ Quaternion.x c = 0 * 0 + 1 * 0 + 0 * 0 - 0 * 1
    /\ Quaternion.y c = 0 * 1 - 1 * 0 + 0 * 0 + 0 * 0
    /\ Quaternion.z c = 0 * 0 + 1 * 1 - 0 * 0 + 0 * 0
    /\ Quaternion.w c * Quaternion.w c + Quaternion.x c * Quaternion.x c
       + Quaternion.y c * Quaternion.y c + Quaternion.z c * Quaternion.z c = 1
    /\ Quaternion.matrix c
       = Np.dot3 (Quaternion._create_matrix 0 1 0 0)
                 (Quaternion._create_matrix 0 0 1 0).
Proof.
  apply (Quaternion_mul_unit
           (Quaternion.make 0 1 0 0 (Quaternion._create_matrix 0 1 0 0))
           (Quaternion.make 0 0 1 0 (Quaternion._create_matrix 0 0 1 0)));
    cbn [Quaternion.w Quaternion.x Quaternion.y Quaternion.z
         Quaternion.matrix]; try reflexivity; ring.
Defined.

(** X9.  A product with the zero sentinel on either side is the zero
    sentinel. *)
Theorem Quaternion_mul_sentinel (m : Np.matrix3) (q : Quaternion.t) :
  let sentinel :=
    Quaternion.make 0 0 0 0 (Quaternion._create_matrix 0 0 0 0) in
  Quaternion.__mul__ (Quaternion.make 0 0 0 0 m) q = Py.Ok sentinel
  /\ Quaternion.__mul__ q (Quaternion.make 0 0 0 0 m) = Py.Ok sentinel.
Proof.
  intro sentinel. unfold Quaternion.__mul__.
  cbn [Quaternion.w Quaternion.x Quaternion.y Quaternion.z].
  split.
  - replace (0 * Quaternion.x q + 0 * Quaternion.w q + 0 * Quaternion.z q
             - 0 * Quaternion.y q) with 0 by ring.
    replace (0 * Quaternion.y q - 0 * Quaternion.z q + 0 * Quaternion.w q
             + 0 * Quaternion.x q) with 0 by ring.
    replace (0 * Quaternion.z q + 0 * Quaternion.y q - 0 * Quaternion.x q
             + 0 * Quaternion.w q) with 0 by ring.
    replace (0 * Quaternion.w q - 0 * Quaternion.x q - 0 * Quaternion.y q
             - 0 * Quaternion.z q) with 0 by ring.
    apply Quaternion_init_zero.
  - replace (Quaternion.w q * 0 + Quaternion.x q * 0 + Quaternion.y q * 0
             - Quaternion.z q * 0) with 0 by ring.
    replace (Quaternion.w q * 0 - Quaternion.x q * 0 + Quaternion.y q * 0
             + Quaternion.z q * 0) with 0 by ring.
    replace (Quaternion.w q * 0 + Quaternion.x q * 0 - Quaternion.y q * 0
             + Quaternion.z q * 0) with 0 by ring.
    replace (Quaternion.w q * 0 - Quaternion.x q * 0 - Quaternion.y q * 0
             - Quaternion.z q * 0) with 0 by ring.
    apply Quaternion_init_zero.
Qed.

(** *** Quaternions of angular velocities *)
Lemma norm3_sqr (x y z : R) :
  Np.norm3 x y z * Np.norm3 x y z = x * x + y * y + z * z.
Proof. unfold Np.norm3. apply sqrt_sqrt. nra. Qed.

Lemma norm3_nonneg (x y z : R) : 0 <= Np.norm3 x y z.
Proof. unfold Np.norm3. apply sqrt_pos. Qed.

Lemma cos_small_angle (a : R) : 0 <= a < 1e-50 -> / 2 < cos (a / 2).
Proof.
  intro H. pose proof PI2_1 as Hpi.
  replace (/ 2) with (cos (PI / 3)) by (rewrite cos_PI3; lra).
  apply cos_decreasing_1; lra.
Qed.

(** X10.  [from_angular_velocity] always returns a quaternion of norm 1:
    the identity (1, 0, 0, 0) when [|angular_velocity| * dt] is below 1e-50,
    and otherwise [cos (m / 2)] with the axis scaled by [sin (m / 2)], [m]
    being that magnitude. *)
Theorem from_angular_velocity_is_unit (angular_velocity : Vector3D.t)
  (dt : R) :
  let vx := Vector3D.x angular_velocity * dt in
  let vy := Vector3D.y angular_velocity * dt in
  let vz := Vector3D.z angular_velocity * dt in
  let magnitude := Np.norm3 vx vy vz in
  exists q,
    Quaternion.from_angular_velocity angular_velocity dt = Py.Ok q
    /\ Quaternion.w q * Quaternion.w q + Quaternion.x q * Quaternion.x q
       + Quaternion.y q * Quaternion.y q + Quaternion.z q * Quaternion.z q = 1
    /\ (magnitude < 1e-50 ->
        q = Quaternion.make 1 0 0 0 (Quaternion._create_matrix 1 0 0 0))
    /\ (1e-50 <= magnitude ->
        Quaternion.w q = cos (magnitude / 2)
        /\ Quaternion.x q = vx / magnitude * sin (magnitude / 2)
        /\ Quaternion.y q = vy / magnitude * sin (magnitude / 2)
        /\ Quaternion.z q = vz / magnitude * sin (magnitude / 2)).
Proof.
  intros vx vy vz magnitude.
  unfold Quaternion.from_angular_velocity.
  cbv beta iota zeta. fold vx vy vz. fold magnitude.
  pose proof (norm3_nonneg vx vy vz) as Hpos. fold magnitude in Hpos.
  destruct (Rlt_dec magnitude 1e-50) as [Hs | Hs].
  - rewrite lt_true by assumption.
    pose proof (cos_small_angle magnitude (conj Hpos Hs)) as Hc.
    set (c := cos (magnitude / 2)) in *.
    unfold Quaternion.__init__.
    assert (Hn : Np.norm4 c 0 0 0 = c).
    { unfold Np.norm4.
      replace (c * c + 0 * 0 + 0 * 0 + 0 * 0) with (c * c) by ring.
      apply sqrt_square. lra. }
    rewrite Hn. rewrite lt_false by lra. rewrite !truediv_ok by lra.
    cbn [Py.bind].
    replace (c / c) with 1 by (field; lra).
    replace (0 / c) with 0 by (field; lra).
    eexists. split; [reflexivity |].
    cbn [Quaternion.w Quaternion.x Quaternion.y Quaternion.z].
    split; [ring |]. split; [reflexivity | intro; lra].
  - rewrite lt_false by lra.
    assert (Hm : magnitude <> 0) by lra.
    rewrite !truediv_ok by assumption. cbn [Py.bind].
    set (c := cos (magnitude / 2)). set (s := sin (magnitude / 2)).
    assert (Hu : c * c + vx / magnitude * s * (vx / magnitude * s)
                 + vy / magnitude * s * (vy / magnitude * s)
                 + vz / magnitude * s * (vz / magnitude * s) = 1).
    { pose proof (norm3_sqr vx vy vz) as Hsq. fold magnitude in Hsq.
      pose proof (sin2_cos2 (magnitude / 2)) as Hsc. unfold Rsqr in Hsc.
      fold c s in Hsc.
      replace (c * c + vx / magnitude * s * (vx / magnitude * s)
               + vy / magnitude * s * (vy / magnitude * s)
               + vz / magnitude * s * (vz / magnitude * s))
        with (c * c + (vx * vx + vy * vy + vz * vz)
                      / (magnitude * magnitude) * (s * s))
        by (field; assumption).
      rewrite <- Hsq.
      replace (magnitude * magnitude / (magnitude * magnitude)) with 1
        by (field; assumption).
      lra. }
    rewrite Quaternion_init_unit by exact Hu.
    eexists. split; [reflexivity |].
    cbn [Quaternion.w Quaternion.x Quaternion.y Quaternion.z].
    split; [exact Hu |]. split; [intro; lra |].
    intro. repeat split.
Qed.

(** ** Bases and angles *)

(** *** The basis of a rotation *)

(** X11.  The forward, right and up vectors of every rotation have length
    1, and each is the cross product of the two before it in the cycle
    forward, right, up. *)
Theorem rotation_basis_is_orthonormal (r : Rotation.t) :
  let f := Rotation.get_forward_vector r in
  let rt := Rotation.get_right_vector r in
  let u := Rotation.get_up_vector r in
  Vector3D.magnitude f = 1 /\ Vector3D.magnitude rt = 1
  /\ Vector3D.magnitude u = 1
  /\ Vector3D.cross f rt = u /\ Vector3D.cross rt u = f
  /\ Vector3D.cross u f = rt.
Proof.
  cbv zeta.
  unfold Rotation.get_forward_vector, Rotation.get_right_vector,
    Rotation.get_up_vector, Vector3D.magnitude, Vector3D.cross, Np.norm3.
  cbn [Vector3D.x Vector3D.y Vector3D.z].
  set (cy := cos (Py.radians (Rotation.yaw r))).
  set (sy := sin (Py.radians (Rotation.yaw r))).
  set (cr := cos (Py.radians (Rotation.roll r))).
  set (sr := sin (Py.radians (Rotation.roll r))).
  set (cp := cos (Py.radians (Rotation.pitch r))).
  set (sp := sin (Py.radians (Rotation.pitch r))).
  assert (Hy : cy * cy = 1 - sy * sy)
    by (pose proof (sin2_cos2 (Py.radians (Rotation.yaw r))) as H;
        unfold Rsqr in H; fold cy sy in H; lra).
  assert (Hr : cr * cr = 1 - sr * sr)
    by (pose proof (sin2_cos2 (Py.radians (Rotation.roll r))) as H;
        unfold Rsqr in H; fold cr sr in H; lra).
  assert (Hp : cp * cp = 1 - sp * sp)
    by (pose proof (sin2_cos2 (Py.radians (Rotation.pitch r))) as H;
        unfold Rsqr in H; fold cp sp in H; lra).
  clearbody cy sy cr sr cp sp.
  repeat split.
  - rewrite <- sqrt_1. f_equal. pythagoras_nsatz.
  - rewrite <- sqrt_1. f_equal. pythagoras_nsatz.
  - rewrite <- sqrt_1. f_equal. pythagoras_nsatz.
  - f_equal; pythagoras_nsatz.
  - f_equal; pythagoras_nsatz.
  - f_equal; pythagoras_nsatz.
Qed.

(** *** Angles between planar vectors *)

(** X12.  [Vector2D.get_angle] lies in [-pi, pi], changes sign when the
    two vectors are exchanged, is 0 between a vector and itself, and reaches
    -pi (from (1, 0) to (-1, 0)). *)
Theorem get_angle_range_and_antisymmetry (a b : Vector2D.t) :
  - PI <= Vector2D.get_angle a b <= PI
  /\ Vector2D.get_angle b a = - Vector2D.get_angle a b
  /\ Vector2D.get_angle a a = 0
  /\ Vector2D.get_angle (Vector2D.make 1 0) (Vector2D.make (-1) 0) = - PI.
Proof.
  pose proof PI_RGT_0 as Hpi.
  split; [apply get_angle_bound |]. split; [| split].
  - unfold Vector2D.get_angle.
    pose proof (atan2_bound (Vector2D.y a) (Vector2D.x a)) as Ha.
    pose proof (atan2_bound (Vector2D.y b) (Vector2D.x b)) as Hb.
    set (A := Py.atan2 (Vector2D.y a) (Vector2D.x a)) in *.
    set (B := Py.atan2 (Vector2D.y b) (Vector2D.x b)) in *.
    unfold Py.gt, Py.lt.
    destruct (Rgt_dec (B - A) PI), (Rlt_dec (B - A) (- PI)),
      (Rgt_dec (A - B) PI), (Rlt_dec (A - B) (- PI));
      unfold Rgt in *; lra.
  - unfold Vector2D.get_angle.
    replace (Py.atan2 (Vector2D.y a) (Vector2D.x a)
             - Py.atan2 (Vector2D.y a) (Vector2D.x a)) with 0 by ring.
    rewrite gt_false by lra. rewrite lt_false by lra. reflexivity.
  - unfold Vector2D.get_angle. cbn [Vector2D.x Vector2D.y].
    rewrite atan2_0_1.
    assert (Hb : Py.atan2 0 (-1) = PI).
    { unfold Py.atan2.
      destruct (Rlt_dec 0 (-1)); [lra |].
      destruct (Rlt_dec (-1) 0); [| lra].
      destruct (Rle_dec 0 0); [| lra].
      replace (0 / -1) with 0 by (field; lra).
      rewrite atan_0. ring. }
    rewrite Hb. rewrite gt_false by lra. rewrite lt_false by lra. ring.
Qed.

(** ** Vectors *)

(** *** Distances *)
Lemma sum_sqr3_nonneg (a b c : R) : 0 <= a * a + b * b + c * c.
Proof. nra. Qed.

Lemma sum_sqr3_zero (a b c : R) :
  a * a + b * b + c * c = 0 -> a = 0 /\ b = 0 /\ c = 0.
Proof. intro H. repeat split; nra. Qed.

Lemma sqrt_le_sum_abs3 (a b c : R) :
  sqrt (a * a + b * b + c * c) <= Rabs a + Rabs b + Rabs c.
Proof.
  pose proof (Rabs_pos a). pose proof (Rabs_pos b). pose proof (Rabs_pos c).
  rewrite <- (sqrt_square (Rabs a + Rabs b + Rabs c)) by lra.
  apply sqrt_le_1_alt.
  assert (Rabs a * Rabs a = a * a)
    by (rewrite <- Rabs_mult; apply Rabs_pos_eq; nra).
  assert (Rabs b * Rabs b = b * b)
    by (rewrite <- Rabs_mult; apply Rabs_pos_eq; nra).
  assert (Rabs c * Rabs c = c * c)
    by (rewrite <- Rabs_mult; apply Rabs_pos_eq; nra).
  nra.
Qed.

(** Cauchy-Schwarz in three dimensions, in the form the triangle inequality
    needs. *)
Lemma cauchy_schwarz3 (a b c d e f : R) :
  a * d + b * e + c * f
  <= sqrt (a * a + b * b + c * c) * sqrt (d * d + e * e + f * f).
Proof.
  set (P := a * a + b * b + c * c). set (Q := d * d + e * e + f * f).
  assert (HP : 0 <= P) by (unfold P; nra).
  assert (HQ : 0 <= Q) by (unfold Q; nra).
  rewrite <- sqrt_mult by assumption.
  destruct (Rle_dec (a * d + b * e + c * f) 0) as [Hn | Hn].
  - pose proof (sqrt_pos (P * Q)). lra.
  - rewrite <- (sqrt_square (a * d + b * e + c * f)) by lra.
    apply sqrt_le_1_alt. unfold P, Q.
    pose proof (Rle_0_sqr (a * e - b * d)) as H1.
    pose proof (Rle_0_sqr (a * f - c * d)) as H2.
    pose proof (Rle_0_sqr (b * f - c * e)) as H3.
    unfold Rsqr in H1, H2, H3.
    assert (Hl : (a * a + b * b + c * c) * (d * d + e * e + f * f)
                 = (a * d + b * e + c * f) * (a * d + b * e + c * f)
                   + (a * e - b * d) * (a * e - b * d)
                   + (a * f - c * d) * (a * f - c * d)
                   + (b * f - c * e) * (b * f - c * e)) by ring.
    lra.
Qed.

(** X13.  [l2_distance] is a metric: not negative, symmetric, zero exactly
    between equal vectors, and it obeys the triangle inequality; [distance]
    is the same function and [magnitude] is the distance to the origin. *)
Theorem l2_distance_is_a_metric (a b c : Vector3D.t) :
  0 <= Vector3D.l2_distance a b
  /\ Vector3D.l2_distance a b = Vector3D.l2_distance b a
  /\ (Vector3D.l2_distance a b = 0 <-> a = b)
  /\ Vector3D.l2_distance a c
     <= Vector3D.l2_distance a b + Vector3D.l2_distance b c
  /\ Vector3D.distance a b = Vector3D.l2_distance a b
  /\ Vector3D.magnitude a = Vector3D.l2_distance a (Vector3D.make 0 0 0).
Proof.
  destruct a as [ax ay az], b as [bx b_y bz], c as [cx cy cz].
  unfold Vector3D.distance, Vector3D.l2_distance, Vector3D.magnitude, Np.norm3.
  cbn [Vector3D.x Vector3D.y Vector3D.z].
  split; [apply sqrt_pos |]. split; [f_equal; ring |]. split; [split |].
  - intro H. apply sqrt_eq_0 in H; [| apply sum_sqr3_nonneg].
    apply sum_sqr3_zero in H. destruct H as (H1 & H2 & H3).
    f_equal; lra.
  - intro H. injection H as -> -> ->.
    replace ((bx - bx) * (bx - bx) + (b_y - b_y) * (b_y - b_y)
             + (bz - bz) * (bz - bz)) with 0 by ring.
    apply sqrt_0.
  - split; [| split; [reflexivity | f_equal; ring]].
    set (u1 := ax - bx). set (u2 := ay - b_y). set (u3 := az - bz).
    set (v1 := bx - cx). set (v2 := b_y - cy). set (v3 := bz - cz).
    replace (ax - cx) with (u1 + v1) by (unfold u1, v1; ring).
    replace (ay - cy) with (u2 + v2) by (unfold u2, v2; ring).
    replace (az - cz) with (u3 + v3) by (unfold u3, v3; ring).
    pose proof (cauchy_schwarz3 u1 u2 u3 v1 v2 v3) as Hcs.
    set (U := sqrt (u1 * u1 + u2 * u2 + u3 * u3)) in *.
    set (V := sqrt (v1 * v1 + v2 * v2 + v3 * v3)) in *.
    assert (HU : 0 <= U) by apply sqrt_pos.
    assert (HV : 0 <= V) by apply sqrt_pos.
    assert (HU2 : U * U = u1 * u1 + u2 * u2 + u3 * u3)
      by (apply sqrt_sqrt; apply sum_sqr3_nonneg).
    assert (HV2 : V * V = v1 * v1 + v2 * v2 + v3 * v3)
      by (apply sqrt_sqrt; apply sum_sqr3_nonneg).
    rewrite <- (sqrt_square (U + V)) by lra.
    apply sqrt_le_1_alt. nra.
Qed.

(** X14.  The Euclidean distance never exceeds the L1 distance, the
    planar distance never exceeds the Euclidean one, and the L1 distance is
    symmetric and zero exactly between equal vectors. *)
Theorem distances_compare (a b : Vector3D.t) :
  Vector3D.l2_distance a b <= Vector3D.l1_distance a b
  /\ Vector3D.distance_2d a b <= Vector3D.distance a b
  /\ Vector3D.l1_distance a b = Vector3D.l1_distance b a
  /\ (Vector3D.l1_distance a b = 0 <-> a = b).
Proof.
  destruct a as [ax ay az], b as [bx b_y bz].
  unfold Vector3D.distance, Vector3D.distance_2d, Vector3D.l2_distance,
    Vector3D.l1_distance, Vector3D.as_numpy_array_2D, Vector3D.__sub__,
    Np.norm3, Np.norm2.
  cbn [Vector3D.x Vector3D.y Vector3D.z].
  split; [apply sqrt_le_sum_abs3 |].
  split; [apply sqrt_le_1_alt; pose proof (Rle_0_sqr (az - bz)) as Hz;
          unfold Rsqr in Hz; lra |].
  split.
  - rewrite (Rabs_minus_sym ax bx), (Rabs_minus_sym ay b_y),
      (Rabs_minus_sym az bz). reflexivity.
  - pose proof (Rabs_pos (ax - bx)). pose proof (Rabs_pos (ay - b_y)).
    pose proof (Rabs_pos (az - bz)).
    split.
    + intro H'.
      assert (Rabs (ax - bx) = 0) by lra. assert (Rabs (ay - b_y) = 0) by lra.
      assert (Rabs (az - bz) = 0) by lra.
      f_equal.
      * destruct (Req_dec (ax - bx) 0) as [E | E]; [lra |].
        apply Rabs_no_R0 in E. contradiction.
      * destruct (Req_dec (ay - b_y) 0) as [E | E]; [lra |].
        apply Rabs_no_R0 in E. contradiction.
      * destruct (Req_dec (az - bz) 0) as [E | E]; [lra |].
        apply Rabs_no_R0 in E. contradiction.
    + intro H'. injection H' as -> -> ->.
      replace (bx - bx) with 0 by ring. replace (b_y - b_y) with 0 by ring.
      replace (bz - bz) with 0 by ring. rewrite Rabs_R0. ring.
Qed.

(** *** Unit vectors, products and arithmetic *)

(** X15.  [make_unit_vector] has no finite result on the zero vector (the
    division by the zero magnitude is the error of the model), and on every
    other vector it returns a vector of length 1 that, scaled by the
    original magnitude, is the original vector. *)
Theorem make_unit_vector_cases (v : Vector3D.t) :
  (v = Vector3D.make 0 0 0 ->
   Vector3D.make_unit_vector v = Py.Raise Py.ZeroDivisionError)
  /\ (v <> Vector3D.make 0 0 0 ->
      exists u,
        Vector3D.make_unit_vector v = Py.Ok u
        /\ Vector3D.magnitude u = 1
        /\ Vector3D.__mul__ u (Vector3D.magnitude v) = v).
Proof.
  destruct v as [vx vy vz].
  unfold Vector3D.make_unit_vector, Vector3D.magnitude, Vector3D.__mul__.
  cbn [Vector3D.x Vector3D.y Vector3D.z].
  split.
  - intro H. injection H as -> -> ->.
    unfold Np.norm3. replace (0 * 0 + 0 * 0 + 0 * 0) with 0 by ring.
    rewrite sqrt_0. unfold Py.truediv.
    destruct (Req_dec_T 0 0); [reflexivity | contradiction].
  - intro H.
    pose proof (norm3_sqr vx vy vz) as Hs.
    pose proof (norm3_nonneg vx vy vz) as Hp.
    set (n := Np.norm3 vx vy vz) in *.
    assert (Hn : n <> 0).
    { intro E. rewrite E in Hs. apply H.
      assert (Hz : vx * vx + vy * vy + vz * vz = 0) by lra.
      apply sum_sqr3_zero in Hz. destruct Hz as (-> & -> & ->).
      reflexivity. }
    rewrite truediv_ok by assumption. cbn [Py.bind].
    eexists. split; [reflexivity |].
    cbn [Vector3D.x Vector3D.y Vector3D.z]. split.
    + unfold Np.norm3. transitivity (sqrt 1); [| apply sqrt_1]. f_equal.
      replace (vx * (1 / n) * (vx * (1 / n)) + vy * (1 / n) * (vy * (1 / n))
               + vz * (1 / n) * (vz * (1 / n)))
        with ((vx * vx + vy * vy + vz * vz) / (n * n)) by (field; assumption).
      rewrite <- Hs. field. assumption.
    + f_equal; field; assumption.
Qed.

Lemma make_unit_vector_cases_witness :
  Vector3D.make_unit_vector (Vector3D.make 0 0 0)
  = Py.Raise Py.ZeroDivisionError
  /\ exists u,
       Vector3D.make_unit_vector (Vector3D.make 3 0 4) = Py.Ok u
       /\ Vector3D.magnitude u = 1
       /\ Vector3D.__mul__ u (Vector3D.magnitude (Vector3D.make 3 0 4))
          = Vector3D.make 3 0 4.
Proof.
  split.
  - apply (proj1 (make_unit_vector_cases (Vector3D.make 0 0 0))). reflexivity.
  - apply (proj2 (make_unit_vector_cases (Vector3D.make 3 0 4))).
    intro H. injection H. intros. lra.
Defined.

(** X16.  The cross product is perpendicular to both operands, changes
    sign when they are exchanged, vanishes on equal operands and satisfies
    Lagrange's identity. *)
Theorem cross_product_laws (a b : Vector3D.t) :
  let c := Vector3D.cross a b in
  Vector3D.x c * Vector3D.x a + Vector3D.y c * Vector3D.y a
  + Vector3D.z c * Vector3D.z a = 0
  /\ Vector3D.x c * Vector3D.x b + Vector3D.y c * Vector3D.y b
     + Vector3D.z c * Vector3D.z b = 0
  /\ Vector3D.cross b a = Vector3D.__mul__ c (-1)
  /\ Vector3D.cross a a = Vector3D.make 0 0 0
  /\ Vector3D.magnitude c * Vector3D.magnitude c
     = Vector3D.magnitude a * Vector3D.magnitude a
       * (Vector3D.magnitude b * Vector3D.magnitude b)
       - (Vector3D.x a * Vector3D.x b + Vector3D.y a * Vector3D.y b
          + Vector3D.z a * Vector3D.z b) ^ 2.
Proof.
  destruct a as [ax ay az], b as [bx b_y bz]. cbv zeta.
  unfold Vector3D.cross, Vector3D.__mul__, Vector3D.magnitude.
  cbn [Vector3D.x Vector3D.y Vector3D.z].
  rewrite !norm3_sqr.
  repeat split; try ring; f_equal; ring.
Qed.

(** X17.  Adding and subtracting the same vector cancel; dividing by 0
    raises [ZeroDivisionError]; dividing by a non-zero [k] undoes the
    multiplication by [k]; the absolute value ignores a change of sign. *)
Theorem vector_arithmetic_round_trips (a b : Vector3D.t) (k : R) :
  Vector3D.__sub__ (Vector3D.__add__ a b) b = a
  /\ Vector3D.__add__ (Vector3D.__sub__ a b) b = a
  /\ Vector3D.__truediv__ a 0 = Py.Raise Py.ZeroDivisionError
  /\ (k <> 0 -> Vector3D.__truediv__ (Vector3D.__mul__ a k) k = Py.Ok a)
  /\ Vector3D.__abs__ (Vector3D.__mul__ a (-1)) = Vector3D.__abs__ a.
Proof.
  destruct a as [ax ay az], b as [bx b_y bz].
  unfold Vector3D.__sub__, Vector3D.__add__, Vector3D.__truediv__,
    Vector3D.__mul__, Vector3D.__abs__.
  cbn [Vector3D.x Vector3D.y Vector3D.z].
  split; [f_equal; ring |]. split; [f_equal; ring |]. split; [| split].
  - unfold Py.truediv. destruct (Req_dec_T 0 0); [reflexivity | contradiction].
  - intro Hk. rewrite !truediv_ok by assumption. cbn [Py.bind].
    do 2 f_equal; field; assumption.
  - replace (ax * -1) with (- ax) by ring.
    replace (ay * -1) with (- ay) by ring.
    replace (az * -1) with (- az) by ring.
    rewrite !Rabs_Ropp. reflexivity.
Qed.

Lemma vector_arithmetic_round_trips_witness :
  Vector3D.__truediv__ (Vector3D.__mul__ (Vector3D.make 1 2 3) 2) 2
  = Py.Ok (Vector3D.make 1 2 3).
Proof.
  apply (vector_arithmetic_round_trips (Vector3D.make 1 2 3)
           (Vector3D.make 0 0 0) 2).
  lra.
Defined.

(** ** Cameras and axis mappings *)

(** *** Projection into a camera *)



(** *** Axis mapping *)
Lemma cos_dominates_sin (a : R) :
  - (PI / 4) < a < PI / 4 -> Rabs (sin a) < Rabs (cos a).
Proof.
  intro H. pose proof PI_RGT_0 as Hpi.
  assert (Hc : 0 < cos a) by (apply cos_gt_0; lra).
  assert (H2 : 0 < cos (2 * a)) by (apply cos_gt_0; lra).
  rewrite cos_2a in H2.
  rewrite (Rabs_pos_eq (cos a)) by lra.
  unfold Rabs. destruct (Rcase_abs (sin a)); nra.
Qed.

Lemma argmax3_first (a b c : R) : b < a -> c < a -> Np.argmax3 a b c = 0%nat.
Proof.
  intros Hb Hc. unfold Np.argmax3, Py.le.
  destruct (Rle_dec b a); [| lra]. destruct (Rle_dec c a); [| lra].
  reflexivity.
Qed.

Lemma argmax3_second (a b c : R) : a < b -> c <= b -> Np.argmax3 a b c = 1%nat.
Proof.
  intros Ha Hc. unfold Np.argmax3, Py.le.
  destruct (Rle_dec b a); [lra |]. cbn [andb].
  destruct (Rle_dec c b); [reflexivity | lra].
Qed.

Lemma argmax3_third (a b c : R) : a < c -> b < c -> Np.argmax3 a b c = 2%nat.
Proof.
  intros Ha Hb. unfold Np.argmax3, Py.le.
  destruct (Rle_dec b a); destruct (Rle_dec c a); cbn [andb]; try lra;
    destruct (Rle_dec c b); try reflexivity; lra.
Qed.

Lemma sin_dominates_cos (a : R) :
  PI / 4 < a < 3 * (PI / 4) -> Rabs (cos a) < Rabs (sin a).
Proof.
  intro H. pose proof PI_RGT_0 as Hpi.
  assert (Hs : 0 < sin a) by (apply sin_gt_0; lra).
  assert (H2 : cos (2 * a) < 0) by (apply cos_lt_0; lra).
  rewrite cos_2a in H2.
  rewrite (Rabs_pos_eq (sin a)) by lra.
  unfold Rabs. destruct (Rcase_abs (cos a)); nra.
Qed.

(** X19.  For a rotation about the vertical axis only, the axis mapping
    is the identity while the yaw stays within 45 degrees of 0, and swaps x
    and y while it lies between 45 and 135 degrees. *)
Theorem axis_mapping_of_yaw (t : Transform.t) (yaw : R) :
  Lifecycle.reachable t ->
  Transform.rotation t = Rotation.make 0 yaw 0 ->
  (-45 < yaw < 45 ->
   snd (Transform.get_axis_mapping t)
   = Py.Ok (Transform.AxisMap.make
              (Transform.AxisMap.make_Axis "x" 0)
              (Transform.AxisMap.make_Axis "y" 1)
              (Transform.AxisMap.make_Axis "z" 2)))
  /\ (45 < yaw < 135 ->
      snd (Transform.get_axis_mapping t)
      = Py.Ok (Transform.AxisMap.make
                 (Transform.AxisMap.make_Axis "y" 1)
                 (Transform.AxisMap.make_Axis "x" 0)
                 (Transform.AxisMap.make_Axis "z" 2))).
Proof.
  intros Ht Hrot. pose proof PI_RGT_0 as Hpi.
  pose proof (reachable_reads_current_pose t Ht) as Hm.
  unfold Transform.get_axis_mapping.
  destruct (Transform.get_matrix t false) as [t1 m]. cbn [snd] in *.
  rewrite Hm, Hrot. cbn [Py.bind].
  unfold Transform._create_matrix.
  cbn [Rotation.yaw Rotation.pitch Rotation.roll
       Np.m00 Np.m01 Np.m02 Np.m10 Np.m11 Np.m12 Np.m20 Np.m21 Np.m22].
  rewrite radians_0, cos_0, sin_0.
  set (a := Py.radians yaw).
  pose proof (Rabs_pos (sin a)) as Hs.
  pose proof (Rabs_pos (cos a)) as Hc.
  replace (cos a * 0 * 0 - sin a * 1) with (- sin a) by ring.
  replace (sin a * 0 * 0 + cos a * 1) with (cos a) by ring.
  replace (- cos a * 0 * 1 - sin a * 0) with 0 by ring.
  replace (- sin a * 0 * 1 + cos a * 0) with 0 by ring.
  replace (- (1) * 0) with 0 by ring.
  replace (1 * cos a) with (cos a) by ring.
  replace (sin a * 1) with (sin a) by ring.
  replace (1 * 1) with 1 by ring.
  rewrite Rabs_Ropp, Rabs_R0, Rabs_R1.
  rewrite (argmax3_third 0 0 1) by lra.
  split; intro Hyaw.
  - assert (Ha : - (PI / 4) < a < PI / 4)
      by (unfold a, Py.radians; split; nra).
    pose proof (cos_dominates_sin a Ha) as Hd.
    rewrite argmax3_first by lra. rewrite argmax3_second by lra.
    reflexivity.
  - assert (Ha : PI / 4 < a < 3 * (PI / 4))
      by (unfold a, Py.radians; split; nra).
    pose proof (sin_dominates_cos a Ha) as Hd.
    rewrite argmax3_second by lra. rewrite argmax3_first by lra.
    reflexivity.
Qed.

Lemma axis_mapping_of_yaw_witness :
  snd (Transform.get_axis_mapping
         (Transform.set_rotation Scenario.origin (Rotation.make 0 30 0)))
  = Py.Ok (Transform.AxisMap.make
             (Transform.AxisMap.make_Axis "x" 0)
             (Transform.AxisMap.make_Axis "y" 1)
             (Transform.AxisMap.make_Axis "z" 2)).
Proof.
  apply (proj1 (axis_mapping_of_yaw
                  (Transform.set_rotation Scenario.origin
                     (Rotation.make 0 30 0)) 30
                  (Lifecycle.rotation_assigned _ _
                     (Lifecycle.built (Some (Location.make 0 0 0))
                        (Some (Rotation.make 0 0 0)) Scenario.origin
                        eq_refl))
                  eq_refl)).
  lra.
Defined.

(** ** Lists, boxes, GPS coordinates and lane markings *)

(** *** Lists of locations *)
Lemma transform_location_value (astype_float32 : R -> R) (t : Transform.t)
  (loc : Location.t) :
  Transform.transform_location astype_float32 t loc
  = (Transform.refresh t,
     Py.Ok (let '(a, b, c) :=
              Transform.astype astype_float32
                (Np.dot_point (Transform.matrix (Transform.refresh t))
                              (Vector3D.as_numpy_array loc)) in
            Location.make a b c)).
Proof.
  unfold Transform.transform_location, Transform.transform_point,
    Transform.get_matrix.
  cbn [Py.bind Transform.__transform map Transform.flatten].
  destruct (Transform.astype astype_float32 _) as [[a b] c]. reflexivity.
Qed.

(** X20.  [transform_locations] on an empty list returns an empty list and
    does not touch the transform; on a non-empty list it refreshes the
    matrix once and maps every location through that same matrix, in
    order. *)
Theorem transform_locations_is_pointwise (astype_float32 : R -> R)
  (t : Transform.t) (locations : list Location.t) :
  Transform.transform_locations astype_float32 t []
  = (t, Py.Ok [])
  /\ (locations <> [] ->
      Transform.transform_locations astype_float32 t locations
      = (Transform.refresh t,
         Py.Ok (map (fun loc =>
                       let '(a, b, c) :=
                         Transform.astype astype_float32
                           (Np.dot_point
                              (Transform.matrix (Transform.refresh t))
                              (Vector3D.as_numpy_array loc)) in
                       Location.make a b c)
                    locations))).
Proof.
  split; [reflexivity |].
  assert (Hcur : forall (ls : list Location.t) (u : Transform.t),
             Transform.refresh u = u ->
             Transform.transform_locations astype_float32 u ls
             = (u, Py.Ok (map (fun loc =>
                       let '(a, b, c) :=
                         Transform.astype astype_float32
                           (Np.dot_point (Transform.matrix u)
                              (Vector3D.as_numpy_array loc)) in
                       Location.make a b c) ls))).
  { induction ls as [| loc rest IH]; intros u Hu; [reflexivity |].
    cbn [Transform.transform_locations map].
    rewrite transform_location_value, Hu. rewrite (IH u Hu). reflexivity. }
  destruct locations as [| loc rest]; [intro H; contradiction |].
  intros _. cbn [Transform.transform_locations map].
  rewrite transform_location_value.
  rewrite (Hcur rest _ (refresh_idempotent t)). reflexivity.
Qed.

Lemma transform_locations_is_pointwise_witness :
  Transform.transform_locations (fun v => v) Scenario.moved
    [Location.make 10 0 0]
  = (Transform.refresh Scenario.moved,
     Py.Ok (map (fun loc =>
                   let '(a, b, c) :=
                     Transform.astype (fun v => v)
                       (Np.dot_point
                          (Transform.matrix (Transform.refresh Scenario.moved))
                          (Vector3D.as_numpy_array loc)) in
                   Location.make a b c)
                [Location.make 10 0 0])).
Proof.
  apply (proj2 (transform_locations_is_pointwise (fun v => v) Scenario.moved
                  [Location.make 10 0 0])).
  discriminate.
Defined.

(** *** Bounding boxes *)
Lemma le_false (a b : R) : b < a -> Py.le a b = false.
Proof. intro H. unfold Py.le. destruct (Rle_dec a b); [lra | reflexivity]. Qed.


(** X21.  A bounding box with a negative half-extent contains no point,
    whatever the owner transform. *)
Theorem box_with_negative_extent_is_empty (astype_float32 : R -> R)
  (b : BoundingBox.t) (p : BoundingBox.world_point) (t : Transform.t) :
  Vector3D.x (BoundingBox.extent b) < 0
  \/ Vector3D.y (BoundingBox.extent b) < 0
  \/ Vector3D.z (BoundingBox.extent b) < 0 ->
  snd (BoundingBox.contains astype_float32 b p t) <> Py.Ok true.
Proof.
  intro H. unfold BoundingBox.contains.
  destruct (Transform.inverse_transform_point astype_float32 t _)
    as [t1 [q | e]]; cbn [snd Py.bind]; [| discriminate].
  unfold BoundingBox.isub, BoundingBox.within_extent.
  destruct q as [[q0 q1] q2]. cbn [Vector3D.as_numpy_array].
  set (r0 := astype_float32 _). set (r1 := astype_float32 _).
  set (r2 := astype_float32 _).
  pose proof (Rabs_pos r0). pose proof (Rabs_pos r1). pose proof (Rabs_pos r2).
  destruct H as [H | [H | H]].
  - rewrite (le_false (Rabs r0)) by lra. cbn. discriminate.
  - rewrite (le_false (Rabs r1)) by lra. rewrite andb_false_r. cbn.
    discriminate.
  - rewrite (le_false (Rabs r2)) by lra. rewrite andb_false_r. discriminate.
Qed.

Lemma box_with_negative_extent_is_empty_witness :
  snd (BoundingBox.contains (fun v => v)
         (BoundingBox.__init__ (Location.make 0 0 0) (Vector3D.make (-1) 1 1)
                               None)
         (BoundingBox.OfLocation (Location.make 0 0 0)) Scenario.origin)
  <> Py.Ok true.
Proof.
  apply (box_with_negative_extent_is_empty (fun v => v)
           (BoundingBox.__init__ (Location.make 0 0 0)
                                 (Vector3D.make (-1) 1 1) None)
           (BoundingBox.OfLocation (Location.make 0 0 0)) Scenario.origin).
  left. cbn. lra.
Defined.



(** *** GPS coordinates *)
Lemma tan_ok (a : R) : cos a <> 0 -> Py.tan a = Py.Ok (tan a).
Proof.
  intro H. unfold Py.tan. destruct (Req_dec_T (cos a) 0);
    [contradiction | reflexivity].
Qed.

Lemma log_ok (a : R) : 0 < a -> Py.log a = Py.Ok (ln a).
Proof.
  intro H. unfold Py.log. destruct (Rlt_dec 0 a); [reflexivity | contradiction].
Qed.

Lemma log_raises (a : R) : a <= 0 -> Py.log a = Py.Raise Py.DomainError.
Proof.
  intro H. unfold Py.log. destruct (Rlt_dec 0 a); [lra | reflexivity].
Qed.

(** X23.  [Location.from_gps] succeeds for latitudes strictly between -90
    and 90: [x] is proportional to the longitude, [z] is the altitude, and
    [y] is 0 on the equator, negative north of it and positive south of it;
    for latitudes from -90 down to -270 (excluded) the logarithm raises. *)
Theorem from_gps_cases (latitude longitude altitude : R) :
  (-90 < latitude < 90 ->
   exists loc,
     Location.from_gps latitude longitude altitude = Py.Ok loc
     /\ Vector3D.x loc = PI * 6378137 / 180 * longitude
     /\ Vector3D.y loc
        = - (6378137 * ln (tan ((90 + latitude) * PI / 360)))
     /\ Vector3D.z loc = altitude
     /\ (latitude = 0 -> Vector3D.y loc = 0)
     /\ (0 < latitude -> Vector3D.y loc < 0)
     /\ (latitude < 0 -> 0 < Vector3D.y loc))
  /\ (-270 < latitude <= -90 ->
      Location.from_gps latitude longitude altitude
      = Py.Raise Py.DomainError).
Proof.
  pose proof PI_RGT_0 as Hpi.
  assert (H45 : (90 + Location.LAT_REF) * PI / 360 = PI / 4)
    by (unfold Location.LAT_REF; field).
  assert (Hscale : cos (Location.LAT_REF * PI / 180) = 1).
  { unfold Location.LAT_REF. replace (0 * PI / 180) with 0 by field.
    apply cos_0. }
  assert (Hc45 : cos (PI / 4) <> 0).
  { assert (0 < cos (PI / 4)) by (apply cos_gt_0; lra). lra. }
  unfold Location.from_gps.
  rewrite H45, Hscale, (tan_ok _ Hc45), tan_PI4. cbn [Py.bind].
  rewrite (log_ok 1) by lra. cbn [Py.bind]. rewrite ln_1.
  set (a := (90 + latitude) * PI / 360).
  split.
  - intros [Hlo Hhi].
    assert (Ha : 0 < a < PI / 2) by (unfold a; split; nra).
    assert (Hca : 0 < cos a) by (apply cos_gt_0; lra).
    assert (Hta : 0 < tan a) by (apply tan_gt_0; lra).
    rewrite tan_ok by lra. cbn [Py.bind].
    rewrite log_ok by assumption. cbn [Py.bind].
    eexists. split; [reflexivity |].
    cbn [Vector3D.x Vector3D.y Vector3D.z Location.make].
    unfold Location.EARTH_RADIUS_EQUA, Location.LON_REF.
    split; [field |]. split; [ring |]. split; [reflexivity |].
    split; [| split].
    + intro H0. assert (a = PI / 4) by (unfold a; rewrite H0; field).
      replace (tan a) with 1 by (rewrite H; symmetry; apply tan_PI4).
      rewrite ln_1. ring.
    + intro Hpos. assert (PI / 4 < a) by (unfold a; nra).
      assert (1 < tan a)
        by (rewrite <- tan_PI4; apply tan_increasing; lra).
      assert (0 < ln (tan a))
        by (rewrite <- ln_1; apply ln_increasing; lra).
      nra.
    + intro Hneg. assert (a < PI / 4) by (unfold a; nra).
      assert (tan a < 1)
        by (rewrite <- tan_PI4; apply tan_increasing; lra).
      assert (ln (tan a) < 0)
        by (rewrite <- ln_1; apply ln_increasing; lra).
      nra.
  - intros [Hlo Hhi].
    assert (Ha : - (PI / 2) < a <= 0) by (unfold a; split; nra).
    assert (Hca : 0 < cos a) by (apply cos_gt_0; lra).
    rewrite tan_ok by lra. cbn [Py.bind].
    rewrite log_raises; [reflexivity |].
    destruct (Req_dec a 0) as [E | E].
    + rewrite E, tan_0. lra.
    + left. apply tan_lt_0; lra.
Qed.

Lemma from_gps_cases_witness :
  (exists loc,
     Location.from_gps 0 8 5 = Py.Ok loc
     /\ Vector3D.x loc = PI * 6378137 / 180 * 8
     /\ Vector3D.y loc = - (6378137 * ln (tan ((90 + 0) * PI / 360)))
     /\ Vector3D.z loc = 5
     /\ (0 = 0 -> Vector3D.y loc = 0)
     /\ (0 < 0 -> Vector3D.y loc < 0)
     /\ (0 < 0 -> 0 < Vector3D.y loc))
  /\ Location.from_gps (-90) 8 5 = Py.Raise Py.DomainError.
Proof.
  split.
  - apply (proj1 (from_gps_cases 0 8 5)). lra.
  - apply (proj2 (from_gps_cases (-90) 8 5)). lra.
Defined.

(** *** Lane markings *)

(** X24.  [LaneMarking(color, type, change)] succeeds exactly when the
    three codes are values of their enumerations (0..5, 0..10, 0..3), and
    then stores the members with those values. *)
Theorem LaneMarking_init_cases (color type change : Z) :
  ((0 <= color <= 5 /\ 0 <= type <= 10 /\ 0 <= change <= 3)%Z ->
   exists m,
     LaneMarking.__init__ color type change = Some m
     /\ LaneMarkingColor.value (LaneMarking.marking_color m) = color
     /\ LaneMarkingType.value (LaneMarking.marking_type m) = type
     /\ LaneChange.value (LaneMarking.lane_change m) = change)
  /\ (~ (0 <= color <= 5 /\ 0 <= type <= 10 /\ 0 <= change <= 3)%Z ->
      LaneMarking.__init__ color type change = None).
Proof.
  split.
  - intros (Hc & Ht & Hl).
    assert (Ec : exists c, LaneMarkingColor.of_value color = Some c
                           /\ LaneMarkingColor.value c = color).
    { assert (color = 0 \/ color = 1 \/ color = 2 \/ color = 3 \/ color = 4
              \/ color = 5)%Z as H by lia.
      repeat (destruct H as [-> | H]; [eexists; split; reflexivity |]).
      subst. eexists; split; reflexivity. }
    assert (Et : exists c, LaneMarkingType.of_value type = Some c
                           /\ LaneMarkingType.value c = type).
    { assert (type = 0 \/ type = 1 \/ type = 2 \/ type = 3 \/ type = 4
              \/ type = 5 \/ type = 6 \/ type = 7 \/ type = 8 \/ type = 9
              \/ type = 10)%Z as H by lia.
      repeat (destruct H as [-> | H]; [eexists; split; reflexivity |]).
      subst. eexists; split; reflexivity. }
    assert (El : exists c, LaneChange.of_value change = Some c
                           /\ LaneChange.value c = change).
    { assert (change = 0 \/ change = 1 \/ change = 2 \/ change = 3)%Z
        as H by lia.
      repeat (destruct H as [-> | H]; [eexists; split; reflexivity |]).
      subst. eexists; split; reflexivity. }
    destruct Ec as [c [Hc1 Hc2]], Et as [ty [Ht1 Ht2]], El as [ch [Hl1 Hl2]].
    unfold LaneMarking.__init__. rewrite Hc1, Ht1, Hl1.
    eexists. split; [reflexivity |]. cbn. repeat split; assumption.
  - intro H. unfold LaneMarking.__init__.
    destruct (LaneMarkingColor.of_value color) as [c |] eqn:Ec;
      [| reflexivity].
    destruct (LaneMarkingType.of_value type) as [ty |] eqn:Et;
      [| reflexivity].
    destruct (LaneChange.of_value change) as [ch |] eqn:El; [| reflexivity].
    exfalso. apply H.
    assert (0 <= color <= 5)%Z.
    { unfold LaneMarkingColor.of_value in Ec.
      destruct color as [| p | p]; try discriminate; [lia |].
      do 3 (destruct p as [p | p |]; try discriminate; try lia). }
    assert (0 <= type <= 10)%Z.
    { unfold LaneMarkingType.of_value in Et.
      destruct type as [| p | p]; try discriminate; [lia |].
      do 4 (destruct p as [p | p |]; try discriminate; try lia). }
    assert (0 <= change <= 3)%Z.
    { unfold LaneChange.of_value in El.
      destruct change as [| p | p]; try discriminate; [lia |].
      do 2 (destruct p as [p | p |]; try discriminate; try lia). }
    tauto.
Qed.

Lemma LaneMarking_init_cases_witness :
  (exists m,
     LaneMarking.__init__ 4 2 3 = Some m
     /\ LaneMarkingColor.value (LaneMarking.marking_color m) = 4%Z
     /\ LaneMarkingType.value (LaneMarking.marking_type m) = 2%Z
     /\ LaneChange.value (LaneMarking.lane_change m) = 3%Z)
  /\ LaneMarking.__init__ 6 2 3 = None.
Proof.
  split.
  - apply (proj1 (LaneMarking_init_cases 4 2 3)). lia.
  - apply (proj2 (LaneMarking_init_cases 6 2 3)). lia.
Defined.
